(** * cold-control: laboratory automation scripts

    A shallow embedding of the parts of the repository that its
    specification talks about:

    - [Py]: the handful of Python built-ins the scripts rely on
      (exceptions, statements, [str.strip], [str.upper], [int], fixed-point
      formatting);
    - [Scope]: [classes/oscilloscope_manager_big_scope.py];
    - [Calib]: [calibrations/calibration_scripts/calibrate_flip_arm.py];
    - [Wave]:  [waveforms/stirap_rabi_generator.py].

    Instruments, the clocks and the file system are the outside world.  They
    are modelled as deterministic oracles (what the k-th operation answers)
    together with a log of what the program did, and the Python code is
    written in a small exception-and-state monad over that log.

    Numbers that are float64 in the scripts are exact rationals here:
    rounding, infinities and NaN operands are outside the model.  Calls into
    numpy and pandas are either modelled by what they compute in exact
    arithmetic or taken as parameters. *)

From Stdlib Require Import ZArith QArith Qabs Qminmax Lia Lqa.
From Stdlib Require Import List String Ascii Bool Arith.
From Stdlib Require Import DecimalString.
Import ListNotations.

Set Implicit Arguments.

(* ================================================================== *)
(** * Python built-ins *)
(* ================================================================== *)

Module Py.

(** Exception classes that occur in the scripts.  All of them derive from
    [Exception]. *)
Inductive exc_class :=
| VisaError | ValueError | RuntimeError | TypeError
| AttributeError | OSError | OtherException.

Record exc := Exc { exc_cls : exc_class; exc_msg : string }.

Definition exc_class_eqb (a b : exc_class) : bool :=
  match a, b with
  | VisaError, VisaError | ValueError, ValueError
  | RuntimeError, RuntimeError | TypeError, TypeError
  | AttributeError, AttributeError | OSError, OSError
  | OtherException, OtherException => true
  | _, _ => false
  end.

(** The outcome of evaluating a Python expression or call. *)
Inductive result (A : Type) :=
| Ok (a : A)
| Raise (e : exc).
Arguments Ok {A} a.
Arguments Raise {A} e.

Local Open Scope string_scope.
Local Open Scope Z_scope.

(** ** Strings *)

(** [str.isspace] on the ASCII range: TAB..CR, FS..US and SPACE. *)
Definition is_space (c : ascii) : bool :=
  let n := nat_of_ascii c in
  ((9 <=? n) && (n <=? 13))%nat || ((28 <=? n) && (n <=? 32))%nat.

Fixpoint lstrip (s : string) : string :=
  match s with
  | String c s' => if is_space c then lstrip s' else s
  | EmptyString => EmptyString
  end.

(** Drops trailing white space: the tail is stripped first, and the head is
    dropped when nothing is left behind it. *)
Fixpoint rstrip (s : string) : string :=
  match s with
  | EmptyString => EmptyString
  | String c s' =>
      match rstrip s' with
      | EmptyString => if is_space c then EmptyString else String c EmptyString
      | t => String c t
      end
  end.

Definition strip (s : string) : string := rstrip (lstrip s).

Definition upper_char (c : ascii) : ascii :=
  let n := nat_of_ascii c in
  if ((97 <=? n) && (n <=? 122))%nat then ascii_of_nat (n - 32) else c.

Fixpoint upper (s : string) : string :=
  match s with
  | EmptyString => EmptyString
  | String c s' => String (upper_char c) (upper s')
  end.

Fixpoint join (sep : string) (l : list string) : string :=
  match l with
  | [] => EmptyString
  | [x] => x
  | x :: rest => x ++ sep ++ join sep rest
  end.

(** [str(n)] for an [int]. *)
Definition str_int (z : Z) : string := NilZero.string_of_int (Z.to_int z).

(** ** [int(s)] for a [str] in base 10

    White space around the literal is ignored, one sign is allowed, and the
    digits may be grouped by single underscores. *)

Definition digit_of (c : ascii) : option Z :=
  let n := nat_of_ascii c in
  if ((48 <=? n) && (n <=? 57))%nat then Some (Z.of_nat (n - 48)) else None.

Fixpoint int_digits (acc : Z) (after_digit : bool) (s : string) : option Z :=
  match s with
  | EmptyString => if after_digit then Some acc else None
  | String c s' =>
      match digit_of c with
      | Some d => int_digits (10 * acc + d) true s'
      | None =>
          if (Ascii.eqb c "_" && after_digit)%bool
          then int_digits acc false s'
          else None
      end
  end.

Definition int_literal (s : string) : option Z :=
  match s with
  | String "-" s' => option_map Z.opp (int_digits 0 false s')
  | String "+" s' => int_digits 0 false s'
  | _ => int_digits 0 false s
  end.

Definition int (s : string) : result Z :=
  match int_literal (strip s) with
  | Some z => Ok z
  | None =>
      Raise (Exc ValueError
               ("invalid literal for int() with base 10: '" ++ s ++ "'"))
  end.

(** ** Comparison of numbers: [a < b] *)

Definition Qltb (a b : Q) : bool := negb (Qle_bool b a).

Lemma Qltb_lt (a b : Q) : Qltb a b = true <-> (a < b)%Q.
Proof.
  unfold Qltb. rewrite negb_true_iff.
  destruct (Qle_bool b a) eqn:E.
  - apply Qle_bool_iff in E. split; [discriminate | intro; lra].
  - split; [intros _ | reflexivity].
    destruct (Qlt_le_dec a b) as [Hlt | Hle]; [exact Hlt |].
    apply Qle_bool_iff in Hle. congruence.
Qed.

(** ** Statements: state plus exceptions

    A statement transforms the state and either yields a value or raises;
    the state it leaves behind is kept in both cases. *)

Section Monad.

Variable S : Type.

Definition M (A : Type) := S -> result A * S.

Definition ret {A} (a : A) : M A := fun s => (Ok a, s).
Definition raise {A} (e : exc) : M A := fun s => (Raise e, s).
Definition lift {A} (r : result A) : M A := fun s => (r, s).
Definition bind {A B} (m : M A) (k : A -> M B) : M B :=
  fun s =>
    match m s with
    | (Ok a, s') => k a s'
    | (Raise e, s') => (Raise e, s')
    end.

(** [try: m  except cls as e: h e] *)
Definition try_except {A} (m : M A) (cls : exc -> bool) (h : exc -> M A) : M A :=
  fun s =>
    match m s with
    | (Raise e, s') => if cls e then h e s' else (Raise e, s')
    | r => r
    end.

Lemma bind_returns {A B} (m : M A) (k : A -> M B) (s : S) (a : A) :
  fst (m s) = Ok a -> bind m k s = k a (snd (m s)).
Proof. unfold bind. destruct (m s) as [[a' | e] s']; cbn; congruence. Qed.

End Monad.

Notation "x <- m ;; k" := (bind m (fun x => k))
  (at level 61, m at next level, right associativity).
Notation "m ;; k" := (bind m (fun _ => k))
  (at level 61, right associativity).

(** ** [format(x, ".Nf")]

    Fixed-point formatting of a number with [d] decimals, rounding half to
    even; the sign of a negative number is kept even when all printed digits
    are zero. *)

Definition round_half_even (q : Q) : Z :=
  let n := Qnum q in
  let d := Zpos (Qden q) in
  let fl := n / d in
  let r := n mod d in
  match 2 * r ?= d with
  | Lt => fl
  | Gt => fl + 1
  | Eq => if Z.even fl then fl else fl + 1
  end.

Fixpoint zeros (n : nat) : string :=
  match n with
  | O => EmptyString
  | S n' => String "0" (zeros n')
  end.

Definition pad_left (width : nat) (s : string) : string :=
  zeros (width - String.length s) ++ s.

Definition format_f (d : nat) (q : Q) : string :=
  let scale := 10 ^ Z.of_nat d in
  let n := round_half_even (Qabs q * inject_Z scale) in
  let sign := if Qle_bool 0 q then EmptyString else "-" in
  let whole := str_int (n / scale) in
  match d with
  | O => sign ++ whole
  | _ => sign ++ whole ++ "." ++ pad_left d (str_int (n mod scale))
  end.

End Py.

Import Py.

(* ================================================================== *)
(** * The oscilloscope manager *)
(* ================================================================== *)

Module Scope.

Local Open Scope string_scope.

(** ** The outside world *)

(** An operation on the VISA session.  [OpResourceManager] and [OpOpen] are
    the two calls of the constructor; the others are methods of
    [self.scope]. *)
Inductive op :=
| OpResourceManager
| OpOpen (scope_id : string)
| OpSetTimeout (ms : Z)
| OpQuery (cmd : string)
| OpWrite (cmd : string)
| OpBinary (cmd : string)
| OpClear
| OpClose
| OpCloseManager.

(** What the instrument, the clocks and the libraries answer.  An answer
    may depend on how many operations came before it. *)
Record Device := {
  dev_resource_manager : result unit;
  dev_open : string -> result unit;
  dev_query : nat -> string -> result string;
  dev_write : nat -> string -> result unit;
  dev_binary : nat -> string -> result (list Z);
  dev_clear : nat -> result unit;
  dev_close : nat -> result unit;
  (** the k-th reading of [time.perf_counter()], in seconds *)
  dev_clock : nat -> Q;
  (** the k-th [datetime.now().strftime(fmt)] *)
  dev_strftime : nat -> string -> string
}.

(** numpy and pandas are used through a handful of calls; the manager only
    moves their values around. *)
Record Lib := {
  flt : Type;
  array : Type;
  frame : Type;
  py_float : string -> result flt;
  repr_float : flt -> string;
  (** [words * y_incr + y_orig] *)
  rescale : list Z -> flt -> flt -> array;
  array_len : array -> nat;
  (** [np.linspace(x0, x0 + dx * (n - 1), n)] *)
  time_axis : flt -> flt -> Z -> result array;
  (** [pd.DataFrame({name: column})] *)
  frame_new : string -> array -> frame;
  (** [df[name] = column] *)
  frame_set : frame -> string -> array -> result frame
}.

(** The manager object and everything it did so far. *)
Record State (L : Lib) := {
  scope_id : string;
  read_speed : option bool;
  ops : list op;
  clock_reads : nat;
  now_reads : nat;
  sleeps : list Q;
  stdout : list string;
  dirs : list string;
  files : list (string * frame L)
}.

Section Manager.

Variable L : Lib.
Variable dev : Device.

Local Abbreviation St := (State L).

(** The methods run in the state-and-exception monad over [St]. *)
Local Abbreviation M := (Py.M St).

Definition is_visa_error (e : exc) : bool := exc_class_eqb (exc_cls e) VisaError.

Fixpoint for_each {A} (l : list A) (body : A -> M unit) : M unit :=
  match l with
  | [] => ret tt
  | a :: l' => body a ;; for_each l' body
  end.

Definition log_op (o : op) (s : St) : St :=
  {| scope_id := scope_id s; read_speed := read_speed s;
     ops := ops s ++ [o]; clock_reads := clock_reads s;
     now_reads := now_reads s; sleeps := sleeps s; stdout := stdout s;
     dirs := dirs s; files := files s |}.

Definition print (line : string) : M unit :=
  fun s =>
    (Ok tt,
     {| scope_id := scope_id s; read_speed := read_speed s; ops := ops s;
        clock_reads := clock_reads s; now_reads := now_reads s;
        sleeps := sleeps s; stdout := stdout s ++ [line];
        dirs := dirs s; files := files s |}).

Definition resource_manager : M unit :=
  fun s => (dev_resource_manager dev, log_op OpResourceManager s).
Definition open_resource (id : string) : M unit :=
  fun s => (dev_open dev id, log_op (OpOpen id) s).
Definition set_timeout (ms : Z) : M unit :=
  fun s => (Ok tt, log_op (OpSetTimeout ms) s).
Definition query (cmd : string) : M string :=
  fun s => (dev_query dev (List.length (ops s)) cmd, log_op (OpQuery cmd) s).
Definition write (cmd : string) : M unit :=
  fun s => (dev_write dev (List.length (ops s)) cmd, log_op (OpWrite cmd) s).
Definition query_binary_values (cmd : string) : M (list Z) :=
  fun s => (dev_binary dev (List.length (ops s)) cmd, log_op (OpBinary cmd) s).
Definition clear : M unit :=
  fun s => (dev_clear dev (List.length (ops s)), log_op OpClear s).
Definition close : M unit :=
  fun s => (dev_close dev (List.length (ops s)), log_op OpClose s).
Definition close_manager : M unit :=
  fun s => (Ok tt, log_op OpCloseManager s).

Definition perf_counter : M Q :=
  fun s =>
    (Ok (dev_clock dev (clock_reads s)),
     {| scope_id := scope_id s; read_speed := read_speed s; ops := ops s;
        clock_reads := S (clock_reads s); now_reads := now_reads s;
        sleeps := sleeps s; stdout := stdout s;
        dirs := dirs s; files := files s |}).

Definition strftime (fmt : string) : M string :=
  fun s =>
    (Ok (dev_strftime dev (now_reads s) fmt),
     {| scope_id := scope_id s; read_speed := read_speed s; ops := ops s;
        clock_reads := clock_reads s; now_reads := S (now_reads s);
        sleeps := sleeps s; stdout := stdout s;
        dirs := dirs s; files := files s |}).

(** [time.sleep] refuses a negative length. *)
Definition sleep (sec : Q) : M unit :=
  fun s =>
    if Qltb sec 0
    then (Raise (Exc ValueError "sleep length must be non-negative"), s)
    else
      (Ok tt,
       {| scope_id := scope_id s; read_speed := read_speed s; ops := ops s;
          clock_reads := clock_reads s; now_reads := now_reads s;
          sleeps := sleeps s ++ [sec]; stdout := stdout s;
          dirs := dirs s; files := files s |}).

Definition set_read_speed (v : option bool) : M unit :=
  fun s =>
    (Ok tt,
     {| scope_id := scope_id s; read_speed := v; ops := ops s;
        clock_reads := clock_reads s; now_reads := now_reads s;
        sleeps := sleeps s; stdout := stdout s;
        dirs := dirs s; files := files s |}).

Definition get_read_speed : M (option bool) := fun s => (Ok (read_speed s), s).

Definition makedirs (d : string) : M unit :=
  fun s =>
    (Ok tt,
     {| scope_id := scope_id s; read_speed := read_speed s; ops := ops s;
        clock_reads := clock_reads s; now_reads := now_reads s;
        sleeps := sleeps s; stdout := stdout s;
        dirs := dirs s ++ [d]; files := files s |}).

Definition to_csv (path : string) (df : frame L) : M unit :=
  fun s =>
    (Ok tt,
     {| scope_id := scope_id s; read_speed := read_speed s; ops := ops s;
        clock_reads := clock_reads s; now_reads := now_reads s;
        sleeps := sleeps s; stdout := stdout s;
        dirs := dirs s; files := files s ++ [(path, df)] |}).

(** A manager object before its constructor has run. *)
Definition blank : St :=
  {| scope_id := EmptyString; read_speed := None; ops := [];
     clock_reads := 0; now_reads := 0; sleeps := []; stdout := [];
     dirs := []; files := [] |}.

(** ** [__init__] *)

Definition default_scope_id : string :=
  "USB0::0x2A8D::0x900E::MY53450121::0::INSTR".

Definition init (id : string) : M unit :=
  fun s0 =>
    let s :=
      {| scope_id := id; read_speed := None; ops := ops s0;
         clock_reads := clock_reads s0; now_reads := now_reads s0;
         sleeps := sleeps s0; stdout := stdout s0;
         dirs := dirs s0; files := files s0 |} in
    try_except
      (resource_manager ;;
       open_resource id ;;
       set_timeout 60000 ;;
       idn <- query "*IDN?" ;;
       print ("Conectado al osciloscopio: " ++ idn))
      is_visa_error
      (fun e =>
         print ("Error al conectar con el osciloscopio: " ++ exc_msg e) ;;
         raise e)
      s.

(** ** [quit] *)

Definition quit : M unit := close ;; close_manager.

(** ** [save_data] *)

Definition path_join (a b : string) : string := a ++ "/" ++ b.

Definition save_data (dataframe : option (frame L)) (filename : string)
    (window : Z) : M string :=
  current_date <- strftime "%Y-%m-%d" ;;
  current_time <- strftime "%H-%M-%S" ;;
  let directory := path_join "data" current_date in
  makedirs directory ;;
  let full_name :=
    path_join directory
      (str_int window ++ "_" ++ current_time ++ "_" ++ filename) in
  match dataframe with
  | None =>
      raise (Exc AttributeError "'NoneType' object has no attribute 'to_csv'")
  | Some df =>
      to_csv full_name df ;;
      print ("Data saved to " ++ full_name) ;;
      ret full_name
  end.

(** ** [configure_scope] and [configure_trigger] *)

Definition configure_scope (data_chs : list Z) (samp_rate timebase_range : flt L)
    (centered_0 high_speed high_impedance : bool) : M unit :=
  set_read_speed (Some high_speed) ;;
  print "configuring the scope settings" ;;
  write "ACQUIRE:MODE HRES" ;;
  write ("ACQUIRE:SRATE:ANALOG " ++ repr_float L samp_rate) ;;
  (if negb centered_0
   then write ":TIMEBASE:REFERENCE LEFT"
   else write "TIMEBASE:POSITION 0") ;;
  write ("TIMEBASE:RANGE " ++ repr_float L timebase_range) ;;
  (if high_impedance
   then for_each data_chs
          (fun channel => write (":CHANnel" ++ str_int channel ++ ":INPut DC"))
   else ret tt) ;;
  write "WAVeform:FORMat WORD" ;;
  print "scope settings configured".

Definition configure_trigger (trigger_channel : Z) (trigger_level : flt L)
    (trigger_slope : string) : M unit :=
  write ":TRIGGER:SWEEP TRIGGERED" ;;
  write ":TRIGGER:MODE EDGE" ;;
  write (":TRIGger:LEVel CHANnel" ++ str_int trigger_channel ++ ", "
           ++ repr_float L trigger_level) ;;
  lvl <- query (":TRIGger:LEVel? CHANnel" ++ str_int trigger_channel) ;;
  print lvl ;;
  if String.eqb trigger_slope "+" then write ":TRIGGER:EDGE:SLOPE POSITIVE"
  else if String.eqb trigger_slope "-" then write ":TRIGGER:EDGE:SLOPE NEGATIVE"
  else raise (Exc ValueError
                ("Invalid value for trigger_slope: " ++ trigger_slope)).

(** ** [set_to_digitize], [set_to_stop], [reset_scope], [clear_scope] *)

Definition str_list (l : list Z) : string :=
  "[" ++ join ", " (map str_int l) ++ "]".

Definition set_to_digitize (channels : list Z) : M bool :=
  query_result <- query ":DIGitize;*OPC?" ;;
  (if String.eqb (strip query_result) "1"
   then print ("Oscilloscope digitized channels " ++ str_list channels ++ ".")
   else ret tt) ;;
  ret (String.eqb (strip query_result) "1").

Definition set_to_stop : M bool :=
  write ":STOP" ;; print "Oscilloscope set to stop mode." ;; ret true.

Definition reset_scope : M unit := clear ;; write "*RST".

Definition clear_scope : M unit := clear ;; print "Oscilloscope cleared.".

(** ** [read_slow_return_data] *)

(** The time axis is read from the instrument for the first channel only. *)
Definition time_frame (q_xincr q_xorig q_points : string) : M (frame L) :=
  print "collecting time data" ;;
  x_incr <- (r <- query q_xincr ;; lift (py_float L r)) ;;
  x_orig <- (r <- query q_xorig ;; lift (py_float L r)) ;;
  num_points <- (r <- query q_points ;; lift (int r)) ;;
  time_data <- lift (time_axis L x_orig x_incr num_points) ;;
  ret (frame_new L "Time (s)" time_data).

Fixpoint read_slow_channels (channels : list Z) (collected_data : option (frame L))
    : M (option (frame L)) :=
  match channels with
  | [] => ret collected_data
  | channel :: rest =>
      write ("WAVEFORM:SOURCE CHANNEL" ++ str_int channel) ;;
      print ("Collecting data from channel " ++ str_int channel ++ "...") ;;
      errors <- query "SYSTem:ERRor?" ;;
      print ("Errors: " ++ strip errors) ;;
      opc <- query "*OPC?" ;;
      (if negb (String.eqb (strip opc) "1")
       then raise (Exc RuntimeError
                     ("Operation did not complete successfully. OPC returned: "
                        ++ strip opc))
       else ret tt) ;;
      y_incr <- (r <- query "WAVeform:YINCrement?" ;; lift (py_float L r)) ;;
      y_orig <- (r <- query "WAVeform:YORigin?" ;; lift (py_float L r)) ;;
      write ":WAVeform:STReaming OFF" ;;
      words <- query_binary_values "WAVeform:DATA?" ;;
      let y_data := rescale L words y_incr y_orig in
      (if Nat.eqb (array_len L y_data) 0
       then raise (Exc ValueError
                     ("No data collected from channel " ++ str_int channel ++ "."))
       else ret tt) ;;
      df <- match collected_data with
            | None =>
                time_frame "WAVeform:XINCrement?" "WAVeform:XORigin?"
                  "WAVeform:POINts?"
            | Some df => ret df
            end ;;
      df' <- lift (frame_set L df
                     ("Channel " ++ str_int channel ++ " Voltage (V)") y_data) ;;
      read_slow_channels rest (Some df')
  end.

Definition read_speed_guard (warning : string) : M unit :=
  speed <- get_read_speed ;;
  match speed with
  | None =>
      raise (Exc ValueError
               "Scope read speed not set. Please configure the scope first.")
  | Some true => print warning
  | Some false => ret tt
  end.

Definition read_slow_return_data (channels : list Z) : M (option (frame L)) :=
  read_speed_guard "Warning: Scope is set to high speed." ;;
  write "WAVEFORM:BYTEORDER LSBFIRST" ;;
  read_slow_channels channels None.

(** ** [acquire_slow_save_data] *)

Fixpoint acquire_slow_channels (channels : list Z)
    (collected_data : option (frame L)) : M (option (frame L)) :=
  match channels with
  | [] => ret collected_data
  | channel :: rest =>
      write "WAVEFORM:BYTEORDER LSBFIRST" ;;
      write ("WAVEFORM:SOURCE CHANNEL" ++ str_int channel) ;;
      print ("Collecting data from channel " ++ str_int channel ++ "...") ;;
      y_incr <- (r <- query "WAVEFORM:YINCREMENT?" ;; lift (py_float L r)) ;;
      y_orig <- (r <- query "WAVEFORM:YORIGIN?" ;; lift (py_float L r)) ;;
      words <- query_binary_values "WAVEFORM:DATA?" ;;
      let y_data := rescale L words y_incr y_orig in
      (if Nat.eqb (array_len L y_data) 0
       then raise (Exc ValueError
                     ("No data collected from channel " ++ str_int channel ++ "."))
       else ret tt) ;;
      df <- match collected_data with
            | None =>
                time_frame "WAVEFORM:XINCREMENT?" "WAVEFORM:XORIGIN?"
                  "WAVEFORM:POINTS?"
            | Some df => ret df
            end ;;
      df' <- lift (frame_set L df
                     ("Channel " ++ str_int channel ++ " Voltage (V)") y_data) ;;
      acquire_slow_channels rest (Some df')
  end.

Definition acquire_slow_save_data (channels : list Z) (window : Z) : M string :=
  read_speed_guard
    "Warning: Scope is set to high speed. Consider using acquire_slow_return_data() instead." ;;
  collected_data <- acquire_slow_channels channels None ;;
  let channels_str := join "_" (map str_int channels) in
  save_data collected_data ("channels_" ++ channels_str ++ "_data") window.

(** ** The polling loops

    Both loops run until [time.perf_counter()] reaches [end]; how long that
    takes is up to the clock, so the loops carry fuel: one unit per reading
    of the clock, [None] when it runs out first. *)

(** What follows the loop of [arm_scope]. *)
Definition arm_failed : M bool :=
  clear ;; close ;;
  raise (Exc RuntimeError "Oscilloscope failed to arm within timeout").

Fixpoint arm_loop (fuel : nat) (end_ poll_interval_sec : Q) (s : St)
    : option (result bool * St) :=
  match fuel with
  | O => None
  | S fuel' =>
      match perf_counter s with
      | (Raise e, s1) => Some (Raise e, s1)
      | (Ok now, s1) =>
          if Qltb now end_ then
            match (r <- query ":AER?" ;; lift (int r)) s1 with
            | (Ok aer, s2) =>
                if Z.eqb aer 1
                then Some ((print "Oscilloscope armed successfully." ;;
                            ret true) s2)
                else
                  match sleep poll_interval_sec s2 with
                  | (Ok _, s3) => arm_loop fuel' end_ poll_interval_sec s3
                  | (Raise e, s3) => Some (Raise e, s3)
                  end
            | (Raise _, s2) => Some (arm_failed s2)
            end
          else Some (arm_failed s1)
      end
  end.

Definition arm_scope (fuel : nat) (max_acq_wait_sec poll_interval_sec : Q)
    (s : St) : option (result bool * St) :=
  match (query ":AER?" ;; write ":SINGLE" ;; perf_counter) s with
  | (Raise e, s1) => Some (Raise e, s1)
  | (Ok start, s1) =>
      arm_loop fuel (start + max_acq_wait_sec) poll_interval_sec s1
  end.

(** The body of the [try] in [wait_for_acquisition]: the new value of
    [ready] and whether [return True] was reached. *)
Definition acquisition_check (ready : bool * bool) (ter oper rstate pder : string)
    : M (bool * bool * bool) :=
  t <- lift (int ter) ;;
  ready0 <- (if negb (Z.eqb t 0)
             then print "Trigger Event occurred" ;; ret true
             else ret (fst ready)) ;;
  others <- (if String.eqb (upper rstate) "STOP"
             then o <- lift (int oper) ;;
                  if Z.eqb o 2
                  then p <- lift (int pder) ;; ret (Z.eqb p 1)
                  else ret false
             else ret false) ;;
  ready1 <- (if others : bool
             then print "Other conditions met" ;; ret true
             else ret (snd ready)) ;;
  if (ready0 && ready1)%bool
  then print "Success" ;; ret (ready0, ready1, true)
  else ret (ready0, ready1, false).

Definition acquisition_status : M (string * string * string * string) :=
  ter <- query ":TER?" ;;
  oper <- query ":OPER?" ;;
  rstate <- query ":RSTATE?" ;;
  pder <- query ":PDER?" ;;
  ret (strip ter, strip oper, strip rstate, strip pder).

Fixpoint wait_loop (fuel : nat) (end_ poll_interval_sec : Q)
    (ready : bool * bool) (s : St) : option (result bool * St) :=
  match fuel with
  | O => None
  | S fuel' =>
      match perf_counter s with
      | (Raise e, s1) => Some (Raise e, s1)
      | (Ok now, s1) =>
          if Qltb now end_ then
            match acquisition_status s1 with
            | (Raise e, s2) => Some (Raise e, s2)
            | (Ok (ter, oper, rstate, pder), s2) =>
                match acquisition_check ready ter oper rstate pder s2 with
                | (Raise _, s3) => Some (Ok false, s3)
                | (Ok (_, _, true), s3) => Some (Ok true, s3)
                | (Ok (ready0, ready1, false), s3) =>
                    match sleep poll_interval_sec s3 with
                    | (Ok _, s4) =>
                        wait_loop fuel' end_ poll_interval_sec (ready0, ready1) s4
                    | (Raise e, s4) => Some (Raise e, s4)
                    end
                end
            end
          else Some (Ok false, s1)
      end
  end.

Definition wait_for_acquisition (fuel : nat)
    (max_acq_wait_sec poll_interval_sec : Q) (s : St)
    : option (result bool * St) :=
  match perf_counter s with
  | (Raise e, s1) => Some (Raise e, s1)
  | (Ok start, s1) =>
      wait_loop fuel (start + max_acq_wait_sec) poll_interval_sec (false, false) s1
  end.

(** ** Facts about the constructor *)

(** C7: when opening the VISA resource raises a [visa.Error], the
    constructor prints one diagnostic line and raises that same exception.
    The only session operations it performed are the creation of the
    resource manager and the one failed [open_resource]: nothing else is
    tried, and no manager is returned. *)
Theorem init_connection_error_reported (id : string) (s : St) (e : exc) :
  dev_resource_manager dev = Ok tt ->
  dev_open dev id = Raise e ->
  exc_cls e = VisaError ->
  exists s',
    init id s = (Raise e, s') /\
    stdout s' =
      (stdout s
         ++ [("Error al conectar con el osciloscopio: " ++ exc_msg e)%string])%list /\
    ops s' = (ops s ++ [OpResourceManager; OpOpen id])%list /\
    read_speed s' = None.
Proof.
  intros Hrm Hopen Hcls.
  unfold init, try_except, bind, resource_manager, open_resource.
  cbn. rewrite Hrm. cbn. rewrite Hopen.
  unfold is_visa_error. rewrite Hcls. cbn.
  eexists. split; [reflexivity |]. cbn.
  rewrite <- app_assoc. auto.
Qed.

(** An exception that is not a [visa.Error] passes through the constructor
    without the diagnostic. *)
Lemma init_other_error_propagates (id : string) (s : St) (e : exc) :
  dev_resource_manager dev = Ok tt ->
  dev_open dev id = Raise e ->
  exc_cls e <> VisaError ->
  exists s', init id s = (Raise e, s') /\ stdout s' = stdout s.
Proof.
  intros Hrm Hopen Hcls.
  unfold init, try_except, bind, resource_manager, open_resource.
  cbn. rewrite Hrm. cbn. rewrite Hopen.
  unfold is_visa_error.
  destruct (exc_cls e); try congruence; cbn; eexists; split; reflexivity.
Qed.

(** ** Facts about the guard of the acquisition methods *)

Lemma init_read_speed (id : string) (s : St) :
  read_speed (snd (init id s)) = None.
Proof.
  unfold init, try_except, bind, resource_manager, open_resource, set_timeout,
    query, print, raise.
  cbn.
  destruct (dev_resource_manager dev); cbn.
  - destruct (dev_open dev id); cbn.
    + destruct (dev_query dev _ _); cbn; [reflexivity |].
      destruct (is_visa_error e); reflexivity.
    + destruct (is_visa_error e); reflexivity.
  - destruct (is_visa_error e); reflexivity.
Qed.

(** Only [configure_scope] assigns [read_speed]; everything else leaves it
    alone. *)
Definition keeps_speed {A} (m : M A) : Prop :=
  forall s, read_speed (snd (m s)) = read_speed s.

Lemma keeps_bind {A B} (m : M A) (k : A -> M B) :
  keeps_speed m -> (forall a, keeps_speed (k a)) -> keeps_speed (bind m k).
Proof.
  intros Hm Hk s. unfold bind.
  specialize (Hm s). destruct (m s) as [[a | e] s1]; cbn in *.
  - now rewrite Hk.
  - exact Hm.
Qed.

Lemma keeps_if {A} (b : bool) (m1 m2 : M A) :
  keeps_speed m1 -> keeps_speed m2 -> keeps_speed (if b then m1 else m2).
Proof. destruct b; auto. Qed.

Lemma keeps_for_each {A} (l : list A) (body : A -> M unit) :
  (forall a, keeps_speed (body a)) -> keeps_speed (for_each l body).
Proof.
  intro Hb. induction l as [| a l IH]; cbn [for_each].
  - intro s. reflexivity.
  - apply keeps_bind; auto.
Qed.

Create HintDb keeps.
#[local] Hint Resolve keeps_bind keeps_if keeps_for_each : keeps.
#[local] Hint Extern 1 (keeps_speed (write _)) => intro; reflexivity : keeps.
#[local] Hint Extern 1 (keeps_speed (query _)) => intro; reflexivity : keeps.
#[local] Hint Extern 1 (keeps_speed (query_binary_values _)) => intro; reflexivity : keeps.
#[local] Hint Extern 1 (keeps_speed (print _)) => intro; reflexivity : keeps.
#[local] Hint Extern 1 (keeps_speed (ret _)) => intro; reflexivity : keeps.
#[local] Hint Extern 1 (keeps_speed (raise _)) => intro; reflexivity : keeps.
#[local] Hint Extern 1 (keeps_speed (lift _)) => intro; reflexivity : keeps.
#[local] Hint Extern 1 (keeps_speed clear) => intro; reflexivity : keeps.
#[local] Hint Extern 1 (keeps_speed close) => intro; reflexivity : keeps.
#[local] Hint Extern 1 (keeps_speed close_manager) => intro; reflexivity : keeps.

Lemma configure_scope_read_speed (chs : list Z) (rate range : flt L)
    (centered high_speed high_z : bool) (s : St) :
  read_speed (snd (configure_scope chs rate range centered high_speed high_z s))
  = Some high_speed.
Proof.
  unfold configure_scope. unfold bind at 1. cbn [set_read_speed].
  match goal with
  | |- read_speed (snd (?m ?s0)) = _ =>
      assert (Hk : keeps_speed m) by auto 20 with keeps;
      rewrite (Hk s0)
  end.
  reflexivity.
Qed.

Lemma configure_trigger_keeps_speed (ch : Z) (lvl : flt L) (slope : string) :
  keeps_speed (configure_trigger ch lvl slope).
Proof. unfold configure_trigger. auto 20 with keeps. Qed.

Lemma set_to_digitize_keeps_speed (chs : list Z) :
  keeps_speed (set_to_digitize chs).
Proof. unfold set_to_digitize. auto 20 with keeps. Qed.

Lemma housekeeping_keeps_speed :
  keeps_speed set_to_stop /\ keeps_speed reset_scope /\
  keeps_speed clear_scope /\ keeps_speed quit.
Proof.
  unfold set_to_stop, reset_scope, clear_scope, quit.
  repeat split; auto 20 with keeps.
Qed.

(** C10: on a manager whose [read_speed] is still [None] (no
    [configure_scope] yet), [read_slow_return_data] and
    [acquire_slow_save_data] raise [ValueError] and leave the state as it
    was: no instrument operation is issued and nothing is printed. *)
Theorem acquisition_requires_configuration (channels : list Z) (window : Z)
    (s : St) :
  read_speed s = None ->
  read_slow_return_data channels s =
    (Raise (Exc ValueError
              "Scope read speed not set. Please configure the scope first."), s)
  /\
  acquire_slow_save_data channels window s =
    (Raise (Exc ValueError
              "Scope read speed not set. Please configure the scope first."), s).
Proof.
  intro Hnone.
  unfold read_slow_return_data, acquire_slow_save_data, read_speed_guard,
    get_read_speed, bind.
  rewrite Hnone. split; reflexivity.
Qed.

(** The log of instrument operations only ever grows. *)
Definition grows {A} (m : M A) : Prop :=
  forall s, exists tl, ops (snd (m s)) = (ops s ++ tl)%list.

Lemma grows_bind {A B} (m : M A) (k : A -> M B) :
  grows m -> (forall a, grows (k a)) -> grows (bind m k).
Proof.
  intros Hm Hk s. unfold bind.
  destruct (Hm s) as [tl1 H1].
  destruct (m s) as [[a | e] s1]; cbn in *.
  - destruct (Hk a s1) as [tl2 H2]. exists (tl1 ++ tl2)%list.
    rewrite H2, H1. now rewrite app_assoc.
  - exists tl1. exact H1.
Qed.

Lemma grows_silent {A} (m : M A) :
  (forall s, ops (snd (m s)) = ops s) -> grows m.
Proof. intros H s. exists []. rewrite H. now rewrite app_nil_r. Qed.

Lemma grows_logged {A} (r : St -> result A) (o : op) :
  grows (fun s => (r s, log_op o s)).
Proof. intro s. exists [o]. reflexivity. Qed.

Lemma grows_if {A} (b : bool) (m1 m2 : M A) :
  grows m1 -> grows m2 -> grows (if b then m1 else m2).
Proof. destruct b; auto. Qed.

Create HintDb grows.
#[local] Hint Resolve grows_bind grows_if : grows.
#[local] Hint Extern 1 (grows (write _)) => apply grows_logged : grows.
#[local] Hint Extern 1 (grows (query _)) => apply grows_logged : grows.
#[local] Hint Extern 1 (grows (query_binary_values _)) => apply grows_logged : grows.
#[local] Hint Extern 1 (grows (print _)) => apply grows_silent; reflexivity : grows.
#[local] Hint Extern 1 (grows (ret _)) => apply grows_silent; reflexivity : grows.
#[local] Hint Extern 1 (grows (raise _)) => apply grows_silent; reflexivity : grows.
#[local] Hint Extern 1 (grows (lift _)) => apply grows_silent; reflexivity : grows.

Lemma grows_time_frame (a b c : string) : grows (time_frame a b c).
Proof. unfold time_frame. auto 20 with grows. Qed.

Lemma grows_read_slow_channels (channels : list Z) :
  forall collected, grows (read_slow_channels channels collected).
Proof.
  induction channels as [| ch rest IH]; intro collected; cbn [read_slow_channels].
  - auto with grows.
  - repeat (apply grows_bind; [auto with grows | intro]).
    + destruct collected; [auto with grows | apply grows_time_frame].
    + apply IH.
Qed.

(** Once the speed is set the guard lets [read_slow_return_data] through:
    its first instrument operation is the byte-order command. *)
Lemma read_slow_return_data_configured (channels : list Z) (s : St) (b : bool) :
  read_speed s = Some b ->
  exists tl,
    ops (snd (read_slow_return_data channels s))
    = (ops s ++ OpWrite "WAVEFORM:BYTEORDER LSBFIRST" :: tl)%list.
Proof.
  intro Hb.
  unfold read_slow_return_data, read_speed_guard, get_read_speed.
  unfold bind at 1 2. rewrite Hb.
  assert (Hrest : forall s0,
            exists tl,
              ops (snd ((write "WAVEFORM:BYTEORDER LSBFIRST" ;;
                         read_slow_channels channels None) s0))
              = (ops s0 ++ OpWrite "WAVEFORM:BYTEORDER LSBFIRST" :: tl)%list).
  { intro s0. unfold bind, write.
    destruct (dev_write dev _ _) as [[] | e]; cbn.
    - destruct (grows_read_slow_channels channels None
                  (log_op (OpWrite "WAVEFORM:BYTEORDER LSBFIRST") s0))
        as [tl Htl].
      rewrite Htl. cbn. exists tl. now rewrite <- app_assoc.
    - exists []. reflexivity. }
  destruct b; cbn.
  - destruct (Hrest (snd (print "Warning: Scope is set to high speed." s)))
      as [tl Htl].
    exists tl. exact Htl.
  - apply Hrest.
Qed.

(** ** Facts about the polling loops *)

(** The k-th instrument operation, read as a poll of [arm_scope]: does it
    answer that the trigger is armed? *)
Definition armed_reply (k : nat) : bool :=
  match dev_query dev k ":AER?" with
  | Ok r => match int r with Ok v => Z.eqb v 1 | Raise _ => false end
  | Raise _ => false
  end.

(** The four status registers polled by [wait_for_acquisition], when the
    first of the four queries is the k-th instrument operation. *)
Definition status_at (k : nat) : result (string * string * string * string) :=
  match dev_query dev k ":TER?" with
  | Raise e => Raise e
  | Ok ter =>
      match dev_query dev (k + 1) ":OPER?" with
      | Raise e => Raise e
      | Ok oper =>
          match dev_query dev (k + 2) ":RSTATE?" with
          | Raise e => Raise e
          | Ok rstate =>
              match dev_query dev (k + 3) ":PDER?" with
              | Raise e => Raise e
              | Ok pder => Ok (strip ter, strip oper, strip rstate, strip pder)
              end
          end
      end
  end.

Definition trigger_seen (ter : string) : bool :=
  match int ter with Ok t => negb (Z.eqb t 0) | Raise _ => false end.

Definition others_met (oper rstate pder : string) : bool :=
  String.eqb (upper rstate) "STOP"
  && match int oper with Ok o => Z.eqb o 2 | Raise _ => false end
  && match int pder with Ok p => Z.eqb p 1 | Raise _ => false end.

Definition trigger_at (k : nat) : bool :=
  match status_at k with
  | Ok (ter, _, _, _) => trigger_seen ter
  | Raise _ => false
  end.

Definition others_at (k : nat) : bool :=
  match status_at k with
  | Ok (_, oper, rstate, pder) => others_met oper rstate pder
  | Raise _ => false
  end.

Lemma arm_failed_raises (s : St) :
  exists e s', arm_failed s = (Raise e, s').
Proof.
  unfold arm_failed, bind, clear, close, raise.
  destruct (dev_clear dev _) as [[] | e1]; [| eauto].
  destruct (dev_close dev _) as [[] | e2]; eauto.
Qed.

Lemma arm_failed_runtime_error (s : St) :
  dev_clear dev (List.length (ops s)) = Ok tt ->
  dev_close dev (S (List.length (ops s))) = Ok tt ->
  exists s',
    arm_failed s =
      (Raise (Exc RuntimeError "Oscilloscope failed to arm within timeout"), s').
Proof.
  intros Hclear Hclose.
  unfold arm_failed, bind, clear, close, raise. rewrite Hclear. cbn.
  rewrite length_app, Nat.add_1_r, Hclose. eauto.
Qed.

Ltac arm_fails :=
  match goal with
  | |- context [arm_failed ?s0] =>
      let e := fresh "e" in
      let s' := fresh "s'" in
      let H := fresh "H" in
      destruct (arm_failed_raises s0) as (e & s' & H); rewrite H; eauto
  end.

Lemma arm_loop_timeout (n : nat) :
  forall fuel end_ poll (s : St),
    (n < fuel)%nat ->
    ~ dev_clock dev (clock_reads s + n) < end_ ->
    (forall k, (k < n)%nat -> armed_reply (List.length (ops s) + k) = false) ->
    exists e s', arm_loop fuel end_ poll s = Some (Raise e, s').
Proof.
  induction n as [| n IH]; intros fuel end_ poll s Hfuel Hexp Hnever;
    (destruct fuel as [| fuel]; [lia |]); cbn [arm_loop perf_counter].
  - rewrite Nat.add_0_r in Hexp.
    destruct (Qltb _ end_) eqn:Hlt; [apply Qltb_lt in Hlt; contradiction |].
    arm_fails.
  - destruct (Qltb _ end_) eqn:Hlt.
    2: arm_fails.
    pose proof (Hnever 0%nat ltac:(lia)) as H0.
    rewrite Nat.add_0_r in H0. unfold armed_reply in H0.
    unfold bind, query, lift. cbn [ops].
    destruct (dev_query dev _ ":AER?") as [r | e0].
    2: arm_fails.
    destruct (int r) as [v | e0].
    2: arm_fails.
    rewrite H0. unfold sleep.
    destruct (Qltb poll 0); [eauto |].
    apply IH.
    + lia.
    + cbn. rewrite <- Nat.add_succ_r. exact Hexp.
    + intros k Hk. cbn -[Nat.add]. rewrite length_app. cbn -[Nat.add].
      replace (List.length (ops s) + 1 + k)%nat
        with (List.length (ops s) + S k)%nat by lia.
      apply Hnever. lia.
Qed.

Lemma acquisition_status_ok (s : St) (quad : string * string * string * string) :
  status_at (List.length (ops s)) = Ok quad ->
  exists s',
    acquisition_status s = (Ok quad, s') /\
    List.length (ops s') = (List.length (ops s) + 4)%nat /\
    clock_reads s' = clock_reads s.
Proof.
  unfold status_at, acquisition_status, bind, query, ret. cbn.
  rewrite !length_app. cbn.
  replace (List.length (ops s) + 1 + 1)%nat with (List.length (ops s) + 2)%nat by lia.
  replace (List.length (ops s) + 2 + 1)%nat with (List.length (ops s) + 3)%nat by lia.
  destruct (dev_query dev _ ":TER?"); [| discriminate].
  destruct (dev_query dev _ ":OPER?"); [| discriminate].
  destruct (dev_query dev _ ":RSTATE?"); [| discriminate].
  destruct (dev_query dev _ ":PDER?"); [| discriminate].
  intro H. injection H as <-.
  eexists. split; [reflexivity |]. cbn. rewrite !length_app. cbn. lia.
Qed.

Lemma acquisition_check_spec (ready : bool * bool) (ter oper rstate pder : string)
    (s : St) :
  match acquisition_check ready ter oper rstate pder s with
  | (Raise _, s') => ops s' = ops s /\ clock_reads s' = clock_reads s
  | (Ok (ready0, ready1, done), s') =>
      ready0 = (trigger_seen ter || fst ready)%bool /\
      ready1 = (others_met oper rstate pder || snd ready)%bool /\
      done = (ready0 && ready1)%bool /\
      ops s' = ops s /\ clock_reads s' = clock_reads s
  end.
Proof.
  unfold acquisition_check, trigger_seen, others_met, bind, lift, print, ret.
  destruct (int ter) as [t | e]; [| auto].
  destruct (Z.eqb t 0); cbn [negb fst snd];
    destruct (String.eqb (upper rstate) "STOP"); cbn [andb];
    try (destruct (int oper) as [o | e]; [| auto];
         destruct (Z.eqb o 2); cbn [andb];
         try (destruct (int pder) as [p | e]; [| auto];
              destruct (Z.eqb p 1)));
    destruct ready as [[] []]; cbn; auto.
Qed.

Lemma wait_loop_timeout (n : nat) :
  forall fuel end_ poll ready (s : St),
    (n < fuel)%nat ->
    0 <= poll ->
    ~ dev_clock dev (clock_reads s + n) < end_ ->
    (forall k, (k < n)%nat ->
               exists quad, status_at (List.length (ops s) + 4 * k) = Ok quad) ->
    ~ ((fst ready = true \/
        exists i, (i < n)%nat /\ trigger_at (List.length (ops s) + 4 * i) = true) /\
       (snd ready = true \/
        exists j, (j < n)%nat /\ others_at (List.length (ops s) + 4 * j) = true)) ->
    exists s', wait_loop fuel end_ poll ready s = Some (Ok false, s').
Proof.
  induction n as [| n IH]; intros fuel end_ poll ready s Hfuel Hpoll Hexp Hok Hnever;
    (destruct fuel as [| fuel]; [lia |]); cbn [wait_loop perf_counter].
  - rewrite Nat.add_0_r in Hexp.
    destruct (Qltb _ end_) eqn:Hlt; [apply Qltb_lt in Hlt; contradiction |].
    eauto.
  - destruct (Qltb _ end_) eqn:Hlt; [| eauto].
    destruct (Hok 0%nat ltac:(lia)) as [quad Hquad].
    rewrite Nat.mul_0_r, Nat.add_0_r in Hquad.
    match goal with
    | |- context [acquisition_status ?s1] =>
        destruct (acquisition_status_ok s1 Hquad) as (s2 & Hst & Hlen & Hclk)
    end.
    rewrite Hst. cbn in Hlen, Hclk.
    destruct quad as [[[ter oper] rstate] pder].
    pose proof (acquisition_check_spec ready ter oper rstate pder s2) as Hchk.
    destruct (acquisition_check ready ter oper rstate pder s2)
      as [[[[ready0 ready1] done] | e] s3]; [| eauto].
    destruct Hchk as (H0 & H1 & Hd & Hops & Hclk3).
    assert (Htrig : trigger_at (List.length (ops s)) = trigger_seen ter)
      by (unfold trigger_at; now rewrite Hquad).
    assert (Hoth : others_at (List.length (ops s)) = others_met oper rstate pder)
      by (unfold others_at; now rewrite Hquad).
    destruct done.
    { exfalso. apply Hnever. symmetry in Hd. apply andb_true_iff in Hd.
      destruct Hd as [Hr0 Hr1]. subst ready0 ready1.
      apply orb_true_iff in Hr0. apply orb_true_iff in Hr1.
      split.
      - destruct Hr0 as [Hr0 | Hr0]; [right | left; exact Hr0].
        exists 0%nat. rewrite Nat.mul_0_r, Nat.add_0_r, Htrig. split; [lia | exact Hr0].
      - destruct Hr1 as [Hr1 | Hr1]; [right | left; exact Hr1].
        exists 0%nat. rewrite Nat.mul_0_r, Nat.add_0_r, Hoth. split; [lia | exact Hr1]. }
    unfold sleep.
    destruct (Qltb poll 0) eqn:Hneg; [apply Qltb_lt in Hneg; lra |].
    apply IH; cbn [ops clock_reads fst snd].
    + lia.
    + exact Hpoll.
    + rewrite Hclk3, Hclk. cbn. rewrite <- Nat.add_succ_r. exact Hexp.
    + intros k Hk. rewrite Hops, Hlen.
      replace (List.length (ops s) + 4 + 4 * k)%nat
        with (List.length (ops s) + 4 * S k)%nat by lia.
      apply Hok. lia.
    + intros [Ht Ho]. apply Hnever. rewrite Hops, Hlen in Ht, Ho. split.
      * destruct Ht as [Ht | (i & Hi & Ht)].
        -- subst ready0. apply orb_true_iff in Ht.
           destruct Ht as [Ht | Ht]; [right | left; exact Ht].
           exists 0%nat. rewrite Nat.mul_0_r, Nat.add_0_r, Htrig.
           split; [lia | exact Ht].
        -- right. exists (S i). split; [lia |].
           replace (List.length (ops s) + 4 * S i)%nat
             with (List.length (ops s) + 4 + 4 * i)%nat by lia.
           exact Ht.
      * destruct Ho as [Ho | (j & Hj & Ho)].
        -- subst ready1. apply orb_true_iff in Ho.
           destruct Ho as [Ho | Ho]; [right | left; exact Ho].
           exists 0%nat. rewrite Nat.mul_0_r, Nat.add_0_r, Hoth.
           split; [lia | exact Ho].
        -- right. exists (S j). split; [lia |].
           replace (List.length (ops s) + 4 * S j)%nat
             with (List.length (ops s) + 4 + 4 * j)%nat by lia.
           exact Ho.
Qed.

(** C1: what the two polling loops do when the clock reaches the deadline
    and the polled condition was never seen.

    [n] is the number of passes the loop makes before the reading of the
    clock that ends it.

    - [arm_scope] raises: no poll answered "armed" (a poll that raises
      counts as such, it leaves the loop), so the scope is cleared and
      closed and [RuntimeError] is raised, unless an instrument call raised
      first, which is an exception all the same.
    - [wait_for_acquisition] does not raise: when every status query is
      answered and "trigger seen" and "other conditions met" were never both
      observed, it returns [False]. *)
Theorem polling_timeout :
  (forall (max_acq_wait_sec poll_interval_sec : Q) (s : St) (n fuel : nat),
      (n < fuel)%nat ->
      ~ dev_clock dev (clock_reads s + 1 + n)
        < dev_clock dev (clock_reads s) + max_acq_wait_sec ->
      (forall k, (k < n)%nat ->
                 armed_reply (List.length (ops s) + 2 + k) = false) ->
      exists e s',
        arm_scope fuel max_acq_wait_sec poll_interval_sec s
        = Some (Raise e, s'))
  /\
  (forall (max_acq_wait_sec poll_interval_sec : Q) (s : St) (n fuel : nat),
      (n < fuel)%nat ->
      ~ dev_clock dev (clock_reads s + 1 + n)
        < dev_clock dev (clock_reads s) + max_acq_wait_sec ->
      0 <= poll_interval_sec ->
      (forall k, (k < n)%nat ->
                 exists quad, status_at (List.length (ops s) + 4 * k) = Ok quad) ->
      ~ ((exists i, (i < n)%nat /\
                    trigger_at (List.length (ops s) + 4 * i) = true) /\
         (exists j, (j < n)%nat /\
                    others_at (List.length (ops s) + 4 * j) = true)) ->
      exists s',
        wait_for_acquisition fuel max_acq_wait_sec poll_interval_sec s
        = Some (Ok false, s')).
Proof.
  split.
  - intros wait poll s n fuel Hfuel Hexp Hnever.
    unfold arm_scope, bind, query, write, perf_counter.
    destruct (dev_query dev _ ":AER?") as [r | e]; [| eauto].
    destruct (dev_write dev _ ":SINGLE") as [[] | e]; [| eauto].
    cbn [ops clock_reads log_op].
    apply (arm_loop_timeout (n := n)).
    + exact Hfuel.
    + cbn. replace (S (clock_reads s + n)) with (clock_reads s + 1 + n)%nat by lia.
      exact Hexp.
    + intros k Hk. cbn -[Nat.add]. rewrite !length_app. cbn -[Nat.add].
      replace (List.length (ops s) + 1 + 1 + k)%nat
        with (List.length (ops s) + 2 + k)%nat by lia.
      apply Hnever. exact Hk.
  - intros wait poll s n fuel Hfuel Hexp Hpoll Hok Hnever.
    unfold wait_for_acquisition. cbn [perf_counter].
    apply (wait_loop_timeout (n := n)); cbn [fst snd ops clock_reads].
    + exact Hfuel.
    + exact Hpoll.
    + cbn. replace (S (clock_reads s + n)) with (clock_reads s + 1 + n)%nat by lia.
      exact Hexp.
    + exact Hok.
    + intros [[Ht | Ht] [Ho | Ho]]; try discriminate. apply Hnever. auto.
Qed.

(** When nothing but the polls goes wrong, the exception of [arm_scope] is
    the [RuntimeError] of its last line. *)
Lemma arm_loop_runtime_error (n : nat) :
  forall fuel end_ poll (s : St),
    (n < fuel)%nat ->
    0 <= poll ->
    dev_clear dev (List.length (ops s) + n) = Ok tt ->
    dev_close dev (List.length (ops s) + n + 1) = Ok tt ->
    (forall k, (k < n)%nat -> dev_clock dev (clock_reads s + k) < end_) ->
    ~ dev_clock dev (clock_reads s + n) < end_ ->
    (forall k, (k < n)%nat ->
               exists r v, dev_query dev (List.length (ops s) + k) ":AER?" = Ok r /\
                           int r = Ok v /\ v <> 1%Z) ->
    exists s',
      arm_loop fuel end_ poll s =
        Some (Raise (Exc RuntimeError "Oscilloscope failed to arm within timeout"), s').
Proof.
  induction n as [| n IH];
    intros fuel end_ poll s Hfuel Hpoll Hclear Hclose Hbefore Hexp Hpolls;
    (destruct fuel as [| fuel]; [lia |]); cbn [arm_loop perf_counter].
  - rewrite Nat.add_0_r in *.
    destruct (Qltb _ end_) eqn:Hlt; [apply Qltb_lt in Hlt; contradiction |].
    match goal with
    | |- context [arm_failed ?s0] =>
        destruct (@arm_failed_runtime_error s0) as [s' H]
    end; [exact Hclear | rewrite <- Nat.add_1_r; exact Hclose |].
    rewrite H. eauto.
  - pose proof (Hbefore 0%nat ltac:(lia)) as Hlt0. rewrite Nat.add_0_r in Hlt0.
    apply Qltb_lt in Hlt0. rewrite Hlt0.
    destruct (Hpolls 0%nat ltac:(lia)) as (r & v & Hq & Hint & Hv).
    rewrite Nat.add_0_r in Hq.
    unfold bind, query, lift. cbn [ops]. rewrite Hq, Hint.
    apply Z.eqb_neq in Hv. rewrite Hv. unfold sleep.
    destruct (Qltb poll 0) eqn:Hneg; [apply Qltb_lt in Hneg; lra |].
    apply IH; cbn -[Nat.add]; rewrite ?length_app; cbn -[Nat.add].
    + lia.
    + exact Hpoll.
    + replace (List.length (ops s) + 1 + n)%nat
        with (List.length (ops s) + S n)%nat by lia. exact Hclear.
    + replace (List.length (ops s) + 1 + n + 1)%nat
        with (List.length (ops s) + S n + 1)%nat by lia. exact Hclose.
    + intros k Hk.
      replace (S (clock_reads s) + k)%nat with (clock_reads s + S k)%nat by lia.
      apply Hbefore. lia.
    + replace (S (clock_reads s) + n)%nat with (clock_reads s + S n)%nat by lia.
      exact Hexp.
    + intros k Hk.
      replace (List.length (ops s) + 1 + k)%nat
        with (List.length (ops s) + S k)%nat by lia.
      apply Hpolls. lia.
Qed.

(** A poll that answers "armed" before the deadline makes [arm_scope]
    return [True]: the exception is not the only way out of the loop. *)
Lemma arm_loop_armed (fuel : nat) (end_ poll : Q) (s : St) (r : string) :
  dev_clock dev (clock_reads s) < end_ ->
  dev_query dev (List.length (ops s)) ":AER?" = Ok r ->
  int r = Ok 1%Z ->
  exists s', arm_loop (S fuel) end_ poll s = Some (Ok true, s').
Proof.
  intros Hlt Hq Hint. cbn [arm_loop perf_counter].
  apply Qltb_lt in Hlt. rewrite Hlt.
  unfold bind, query, lift, print, ret. cbn [ops]. rewrite Hq, Hint.
  cbn. eexists. reflexivity.
Qed.


(** ** More about the constructor and the read speed *)

(** X1: whatever happens in the constructor, the manager has the given
    identifier and no read speed, and the console tells how it went: after
    a successful run one line with the instrument's identification (and the
    session saw the resource manager, the resource, the timeout and the
    [*IDN?] query, in this order); after a [visa.Error] from any of its
    calls, the [*IDN?] query included, one line with the diagnostic; after
    any other exception nothing. *)
Theorem init_outcomes (id : string) (s : St) :
  let r := fst (init id s) in
  let s' := snd (init id s) in
  scope_id s' = id /\ read_speed s' = None /\
  match r with
  | Ok _ =>
      (exists idn,
          stdout s' = (stdout s ++ [("Conectado al osciloscopio: " ++ idn)%string])%list) /\
      ops s' = (ops s ++ [OpResourceManager; OpOpen id; OpSetTimeout 60000;
                          OpQuery "*IDN?"])%list
  | Raise e =>
      if is_visa_error e
      then stdout s' =
             (stdout s
                ++ [("Error al conectar con el osciloscopio: " ++ exc_msg e)%string])%list
      else stdout s' = stdout s
  end.
Proof.
  unfold init, try_except, bind, resource_manager, open_resource, set_timeout,
    query, print, raise.
  cbn.
  destruct (dev_resource_manager dev) as [[] | e]; cbn.
  - destruct (dev_open dev id) as [[] | e]; cbn.
    + destruct (dev_query dev _ _) as [idn | e]; cbn.
      * repeat split; [eexists; reflexivity |].
        repeat rewrite <- app_assoc. reflexivity.
      * destruct (is_visa_error e) eqn:He; cbn; rewrite ?He; auto.
    + destruct (is_visa_error e) eqn:He; cbn; rewrite ?He; auto.
  - destruct (is_visa_error e) eqn:He; cbn; rewrite ?He; auto.
Qed.

Lemma keeps_time_frame (a b c : string) : keeps_speed (time_frame a b c).
Proof. unfold time_frame. auto 20 with keeps. Qed.

Lemma keeps_read_slow_channels (channels : list Z) :
  forall collected, keeps_speed (read_slow_channels channels collected).
Proof.
  induction channels as [| ch rest IH]; intro collected; cbn [read_slow_channels].
  - auto with keeps.
  - repeat (apply keeps_bind; [auto with keeps | intro]).
    + destruct collected; [auto with keeps | apply keeps_time_frame].
    + apply IH.
Qed.

Lemma keeps_acquire_slow_channels (channels : list Z) :
  forall collected, keeps_speed (acquire_slow_channels channels collected).
Proof.
  induction channels as [| ch rest IH]; intro collected;
    cbn [acquire_slow_channels].
  - auto with keeps.
  - repeat (apply keeps_bind; [auto with keeps | intro]).
    + destruct collected; [auto with keeps | apply keeps_time_frame].
    + apply IH.
Qed.

Lemma keeps_save_data (df : option (frame L)) (filename : string) (window : Z) :
  keeps_speed (save_data df filename window).
Proof.
  unfold save_data.
  repeat (apply keeps_bind; [intro; reflexivity | intro]).
  destruct df; [| auto with keeps].
  repeat (apply keeps_bind; [try (intro; reflexivity); auto with keeps | intro]).
  auto with keeps.
Qed.

Lemma keeps_guard (warning : string) : keeps_speed (read_speed_guard warning).
Proof.
  unfold read_speed_guard. apply keeps_bind; [intro; reflexivity |].
  intros [[] |]; auto with keeps.
Qed.

(** X2: [read_speed] is assigned by [configure_scope] alone.  The trigger
    configuration, digitize, stop, reset, clear, quit and both acquisition
    methods leave it as it was, whether they return or raise. *)
Theorem read_speed_kept_by_other_methods :
  (forall ch lvl slope, keeps_speed (configure_trigger ch lvl slope)) /\
  (forall chs, keeps_speed (set_to_digitize chs)) /\
  keeps_speed set_to_stop /\ keeps_speed reset_scope /\
  keeps_speed clear_scope /\ keeps_speed quit /\
  (forall chs, keeps_speed (read_slow_return_data chs)) /\
  (forall chs window, keeps_speed (acquire_slow_save_data chs window)).
Proof.
  repeat split.
  - intros. unfold configure_trigger. auto 20 with keeps.
  - intros. unfold set_to_digitize. auto 20 with keeps.
  - unfold set_to_stop. auto with keeps.
  - unfold reset_scope. auto with keeps.
  - unfold clear_scope. auto with keeps.
  - unfold quit. auto with keeps.
  - intros. unfold read_slow_return_data.
    apply keeps_bind; [apply keeps_guard | intro].
    apply keeps_bind; [auto with keeps | intro].
    apply keeps_read_slow_channels.
  - intros. unfold acquire_slow_save_data.
    apply keeps_bind; [apply keeps_guard | intro].
    apply keeps_bind; [apply keeps_acquire_slow_channels | intro].
    apply keeps_save_data.
Qed.

(** X3: [configure_scope] records the read speed before it sends its first
    command.  So after any call of it, also one that raised half-way, the
    speed is set and [read_slow_return_data] gets past its guard: its next
    instrument operation is the byte-order command. *)
Theorem configure_scope_opens_guard (data_chs channels : list Z)
    (samp_rate timebase_range : flt L) (centered_0 high_speed high_impedance : bool)
    (s : St) :
  let s1 :=
    snd (configure_scope data_chs samp_rate timebase_range centered_0
           high_speed high_impedance s) in
  read_speed s1 = Some high_speed /\
  exists tl,
    ops (snd (read_slow_return_data channels s1))
    = (ops s1 ++ OpWrite "WAVEFORM:BYTEORDER LSBFIRST" :: tl)%list.
Proof.
  cbn zeta.
  pose proof (configure_scope_read_speed data_chs samp_rate timebase_range
                centered_0 high_speed high_impedance s) as Hspeed.
  split; [exact Hspeed |].
  exact (read_slow_return_data_configured channels _ Hspeed).
Qed.

(** ** More about [arm_scope] *)





(** ** More about [wait_for_acquisition] *)








(** ** More about the acquisition methods *)
















(** X10: when the completion query of the first channel is answered with
    anything but 1, [read_slow_return_data] raises [RuntimeError] with that
    answer in its message, and does not ask for the waveform: the session
    has seen the byte order, the source, the error query and the completion
    query only. *)
Theorem read_slow_return_data_incomplete (channel : Z) (rest : list Z) (s : St)
    (errors opc : string) :
  read_speed s = Some false ->
  dev_write dev (List.length (ops s)) "WAVEFORM:BYTEORDER LSBFIRST" = Ok tt ->
  dev_write dev (List.length (ops s) + 1)
    ("WAVEFORM:SOURCE CHANNEL" ++ str_int channel) = Ok tt ->
  dev_query dev (List.length (ops s) + 2) "SYSTem:ERRor?" = Ok errors ->
  dev_query dev (List.length (ops s) + 3) "*OPC?" = Ok opc ->
  strip opc <> "1" ->
  exists s',
    read_slow_return_data (channel :: rest) s =
      (Raise (Exc RuntimeError
                ("Operation did not complete successfully. OPC returned: "
                   ++ strip opc)), s') /\
    ops s' =
      (ops s ++ [OpWrite "WAVEFORM:BYTEORDER LSBFIRST";
                 OpWrite ("WAVEFORM:SOURCE CHANNEL" ++ str_int channel);
                 OpQuery "SYSTem:ERRor?"; OpQuery "*OPC?"])%list.
Proof.
  intros Hspeed Hw0 Hw1 Hq2 Hq3 Hopc.
  apply String.eqb_neq in Hopc.
  unfold read_slow_return_data, read_speed_guard, get_read_speed.
  unfold bind at 1 2. rewrite Hspeed. unfold ret at 1.
  unfold bind at 1. unfold write at 1. rewrite Hw0.
  cbn [read_slow_channels].
  unfold bind at 1. unfold write at 1. cbn [ops log_op].
  rewrite length_app. cbn [List.length]. rewrite Hw1.
  unfold bind at 1. unfold print at 1.
  unfold bind at 1. unfold query at 1. cbn [ops log_op].
  rewrite !length_app. cbn [List.length].
  replace (List.length (ops s) + 1 + 1)%nat
    with (List.length (ops s) + 2)%nat by lia.
  rewrite Hq2.
  unfold bind at 1. unfold print at 1.
  unfold bind at 1. unfold query at 1. cbn [ops log_op].
  rewrite !length_app. cbn [List.length].
  replace (List.length (ops s) + 1 + 1 + 1)%nat
    with (List.length (ops s) + 3)%nat by lia.
  rewrite Hq3.
  unfold bind at 1. rewrite Hopc. cbn [negb]. unfold raise.
  eexists. split; [reflexivity |]. cbn [ops log_op].
  rewrite <- !app_assoc. reflexivity.
Qed.



Section Untouched.

Variable X : Type.
Variable f : St -> X.
Hypothesis f_log : forall o s, f (log_op o s) = f s.
Hypothesis f_print : forall line s, f (snd (print line s)) = f s.




End Untouched.



(** X12: with an empty list of channels, and the speed set,
    [read_slow_return_data] sends the byte-order command and returns [None]
    rather than a frame, and [acquire_slow_save_data] sends nothing at all,
    creates the directory of the day and then raises [AttributeError]: no
    file is stored. *)
Theorem empty_channel_list (window : Z) (s : St) (b : bool) :
  read_speed s = Some b ->
  dev_write dev (List.length (ops s)) "WAVEFORM:BYTEORDER LSBFIRST" = Ok tt ->
  (fst (read_slow_return_data [] s) = Ok None /\
   ops (snd (read_slow_return_data [] s))
   = (ops s ++ [OpWrite "WAVEFORM:BYTEORDER LSBFIRST"])%list)
  /\
  (fst (acquire_slow_save_data [] window s)
   = Raise (Exc AttributeError "'NoneType' object has no attribute 'to_csv'") /\
   ops (snd (acquire_slow_save_data [] window s)) = ops s /\
   files (snd (acquire_slow_save_data [] window s)) = files s /\
   dirs (snd (acquire_slow_save_data [] window s))
   = (dirs s ++ [path_join "data" (dev_strftime dev (now_reads s) "%Y-%m-%d")])%list).
Proof.
  intros Hspeed Hw.
  unfold read_slow_return_data, acquire_slow_save_data, read_speed_guard,
    get_read_speed, save_data.
  unfold bind, write, print, ret, raise, strftime, makedirs.
  rewrite Hspeed.
  destruct b; cbn; rewrite Hw; cbn; repeat split.
Qed.

(** X13: [configure_trigger] checks the slope last.  With a slope other
    than ["+"] and ["-"] it raises [ValueError], but the sweep, the mode
    and the level have been programmed and the level read back by then. *)
Theorem configure_trigger_invalid_slope (trigger_channel : Z)
    (trigger_level : flt L) (trigger_slope level : string) (s : St) :
  trigger_slope <> "+" ->
  trigger_slope <> "-" ->
  dev_write dev (List.length (ops s)) ":TRIGGER:SWEEP TRIGGERED" = Ok tt ->
  dev_write dev (List.length (ops s) + 1) ":TRIGGER:MODE EDGE" = Ok tt ->
  dev_write dev (List.length (ops s) + 2)
    (":TRIGger:LEVel CHANnel" ++ str_int trigger_channel ++ ", "
       ++ repr_float L trigger_level) = Ok tt ->
  dev_query dev (List.length (ops s) + 3)
    (":TRIGger:LEVel? CHANnel" ++ str_int trigger_channel) = Ok level ->
  exists s',
    configure_trigger trigger_channel trigger_level trigger_slope s =
      (Raise (Exc ValueError
                ("Invalid value for trigger_slope: " ++ trigger_slope)), s') /\
    ops s' =
      (ops s ++ [OpWrite ":TRIGGER:SWEEP TRIGGERED"; OpWrite ":TRIGGER:MODE EDGE";
                 OpWrite (":TRIGger:LEVel CHANnel" ++ str_int trigger_channel
                            ++ ", " ++ repr_float L trigger_level);
                 OpQuery (":TRIGger:LEVel? CHANnel"
                            ++ str_int trigger_channel)])%list /\
    stdout s' = (stdout s ++ [level])%list.
Proof.
  intros Hplus Hminus Hw0 Hw1 Hw2 Hq.
  apply String.eqb_neq in Hplus. apply String.eqb_neq in Hminus.
  unfold configure_trigger.
  unfold bind at 1. unfold write at 1. rewrite Hw0.
  unfold bind at 1. unfold write at 1. cbn [ops log_op].
  rewrite length_app. cbn [List.length]. rewrite Hw1.
  unfold bind at 1. unfold write at 1. cbn [ops log_op].
  rewrite !length_app. cbn [List.length].
  replace (List.length (ops s) + 1 + 1)%nat
    with (List.length (ops s) + 2)%nat by lia.
  rewrite Hw2.
  unfold bind at 1. unfold query at 1. cbn [ops log_op].
  rewrite !length_app. cbn [List.length].
  replace (List.length (ops s) + 1 + 1 + 1)%nat
    with (List.length (ops s) + 3)%nat by lia.
  rewrite Hq.
  unfold bind at 1. unfold print at 1.
  rewrite Hplus, Hminus. unfold raise.
  eexists. split; [reflexivity |]. cbn [ops stdout log_op].
  rewrite <- !app_assoc. split; reflexivity.
Qed.
End Manager.

(** ** A concrete bench *)

(** Exact stand-ins for the numpy and pandas calls: columns are lists of
    rationals, a frame lists its columns in order. *)
Definition exact_lib : Lib :=
  {| flt := Q;
     array := list Q;
     frame := list (string * list Q);
     py_float := fun r => match int r with
                          | Ok z => Ok (inject_Z z)
                          | Raise e => Raise e
                          end;
     repr_float := fun q => str_int (Qnum q) ++ "/" ++ str_int (Zpos (Qden q));
     rescale := fun words y_incr y_orig =>
                  map (fun w => inject_Z w * y_incr + y_orig) words;
     array_len := @List.length Q;
     time_axis := fun x0 dx n =>
                    Ok (map (fun i => x0 + dx * inject_Z (Z.of_nat i))
                          (seq 0 (Z.to_nat n)));
     frame_new := fun name col => [(name, col)];
     frame_set := fun df name col => Ok (df ++ [(name, col)])%list |}.

(** A scope that answers ["0"] to every query, never fails, and whose clock
    advances by one second per reading. *)
Definition idle_scope : Device :=
  {| dev_resource_manager := Ok tt;
     dev_open := fun _ => Ok tt;
     dev_query := fun _ _ => Ok "0";
     dev_write := fun _ _ => Ok tt;
     dev_binary := fun _ _ => Ok [];
     dev_clear := fun _ => Ok tt;
     dev_close := fun _ => Ok tt;
     dev_clock := fun k => inject_Z (Z.of_nat k);
     dev_strftime := fun _ fmt => fmt |}.

(** A bench on which the VISA resource cannot be opened. *)
Definition unplugged_scope : Device :=
  {| dev_resource_manager := Ok tt;
     dev_open := fun id => Raise (Exc VisaError "VI_ERROR_RSRC_NFOUND");
     dev_query := fun _ _ => Ok "0";
     dev_write := fun _ _ => Ok tt;
     dev_binary := fun _ _ => Ok [];
     dev_clear := fun _ => Ok tt;
     dev_close := fun _ => Ok tt;
     dev_clock := fun k => inject_Z (Z.of_nat k);
     dev_strftime := fun _ fmt => fmt |}.

Lemma idle_scope_never_armed (k : nat) : armed_reply idle_scope k = false.
Proof. reflexivity. Qed.

Lemma idle_scope_never_triggered (k : nat) : trigger_at idle_scope k = false.
Proof. reflexivity. Qed.

(** C1, as stated, fails for [wait_for_acquisition]: on the idle scope the
    trigger is never seen, the deadline of three seconds passes at the
    fourth reading of the clock, and the call returns [False]. *)
Lemma wait_for_acquisition_timeout_returns :
  (forall k, trigger_at idle_scope k = false) /\
  ~ dev_clock idle_scope 3 < dev_clock idle_scope 0 + 3 /\
  option_map fst
    (wait_for_acquisition (L := exact_lib) idle_scope 5 3 (1 # 100)
       (blank exact_lib))
  = Some (Ok false).
Proof.
  split; [exact idle_scope_never_triggered |].
  split; [| reflexivity].
  cbn. unfold Qlt. cbn. lia.
Qed.

Lemma polling_timeout_witness :
  (exists e s',
      arm_scope (L := exact_lib) idle_scope 5 3 (1 # 10) (blank exact_lib)
      = Some (Raise e, s'))
  /\
  (exists s',
      wait_for_acquisition (L := exact_lib) idle_scope 5 3 (1 # 100)
        (blank exact_lib)
      = Some (Ok false, s')).
Proof.
  destruct (polling_timeout exact_lib idle_scope) as [Harm Hwait].
  split.
  - apply (Harm 3 (1 # 10) (blank exact_lib) 2%nat 5%nat).
    + lia.
    + cbn. unfold Qlt. cbn. lia.
    + intros k _. reflexivity.
  - apply (Hwait 3 (1 # 100) (blank exact_lib) 2%nat 5%nat).
    + lia.
    + cbn. unfold Qlt. cbn. lia.
    + unfold Qle. cbn. lia.
    + intros k _. eexists. reflexivity.
    + intros [(i & _ & Hi) _]. discriminate Hi.
Defined.

Lemma init_connection_error_reported_witness :
  exists s',
    init (L := exact_lib) unplugged_scope default_scope_id (blank exact_lib)
    = (Raise (Exc VisaError "VI_ERROR_RSRC_NFOUND"), s') /\
    stdout s' =
      ["Error al conectar con el osciloscopio: VI_ERROR_RSRC_NFOUND"] /\
    ops s' = [OpResourceManager; OpOpen default_scope_id] /\
    read_speed s' = None.
Proof.
  apply (init_connection_error_reported (L := exact_lib) unplugged_scope
           default_scope_id (blank exact_lib)
           (e := Exc VisaError "VI_ERROR_RSRC_NFOUND"));
    reflexivity.
Defined.

Lemma acquisition_requires_configuration_witness :
  read_slow_return_data (L := exact_lib) idle_scope [1; 2]%Z
    (snd (init idle_scope default_scope_id (blank exact_lib)))
  = (Raise (Exc ValueError
              "Scope read speed not set. Please configure the scope first."),
     snd (init idle_scope default_scope_id (blank exact_lib)))
  /\
  acquire_slow_save_data (L := exact_lib) idle_scope [1; 2]%Z 0
    (snd (init idle_scope default_scope_id (blank exact_lib)))
  = (Raise (Exc ValueError
              "Scope read speed not set. Please configure the scope first."),
     snd (init idle_scope default_scope_id (blank exact_lib))).
Proof.
  apply (acquisition_requires_configuration (L := exact_lib) idle_scope
           [1; 2]%Z 0 (snd (init idle_scope default_scope_id (blank exact_lib)))).
  reflexivity.
Defined.


(** ** More concrete runs *)





(** The manager after [__init__] and [configure_scope] with the defaults. *)
Definition configured (dev : Device) : State exact_lib :=
  snd (configure_scope (L := exact_lib) dev [1; 2]%Z
         (inject_Z 10000000000) (1 # 100000000)%Q false false true
         (snd (init dev default_scope_id (blank exact_lib)))).







Lemma read_slow_return_data_incomplete_witness :
  exists s',
    read_slow_return_data idle_scope [1; 2]%Z (configured idle_scope) =
      (Raise (Exc RuntimeError
                "Operation did not complete successfully. OPC returned: 0"), s') /\
    ops s' =
      (ops (configured idle_scope)
         ++ [OpWrite "WAVEFORM:BYTEORDER LSBFIRST";
             OpWrite "WAVEFORM:SOURCE CHANNEL1";
             OpQuery "SYSTem:ERRor?"; OpQuery "*OPC?"])%list.
Proof.
  apply (@read_slow_return_data_incomplete exact_lib idle_scope 1%Z [2]%Z
           (configured idle_scope) "0" "0");
    try reflexivity.
  discriminate.
Defined.


Lemma empty_channel_list_witness :
  (fst (read_slow_return_data idle_scope [] (configured idle_scope)) = Ok None /\
   ops (snd (read_slow_return_data idle_scope [] (configured idle_scope)))
   = (ops (configured idle_scope) ++ [OpWrite "WAVEFORM:BYTEORDER LSBFIRST"])%list)
  /\
  (fst (acquire_slow_save_data idle_scope [] 0 (configured idle_scope))
   = Raise (Exc AttributeError "'NoneType' object has no attribute 'to_csv'") /\
   ops (snd (acquire_slow_save_data idle_scope [] 0 (configured idle_scope)))
   = ops (configured idle_scope) /\
   files (snd (acquire_slow_save_data idle_scope [] 0 (configured idle_scope)))
   = [] /\
   dirs (snd (acquire_slow_save_data idle_scope [] 0 (configured idle_scope)))
   = ["data/%Y-%m-%d"]).
Proof.
  apply (@empty_channel_list exact_lib idle_scope 0%Z (configured idle_scope)
           false); reflexivity.
Defined.

Lemma configure_trigger_invalid_slope_witness :
  exists s',
    configure_trigger (L := exact_lib) idle_scope 1 (1 # 2)%Q "rising"
      (blank exact_lib) =
      (Raise (Exc ValueError "Invalid value for trigger_slope: rising"), s') /\
    ops s' =
      [OpWrite ":TRIGGER:SWEEP TRIGGERED"; OpWrite ":TRIGGER:MODE EDGE";
       OpWrite ":TRIGger:LEVel CHANnel1, 1/2";
       OpQuery ":TRIGger:LEVel? CHANnel1"] /\
    stdout s' = ["0"].
Proof.
  apply (@configure_trigger_invalid_slope exact_lib idle_scope 1%Z (1 # 2)%Q
           "rising" "0" (blank exact_lib));
    try reflexivity; discriminate.
Defined.
End Scope.

(* ================================================================== *)
(** * The flip-arm calibration *)
(* ================================================================== *)

Module Calib.

Local Open Scope string_scope.
Local Open Scope Q_scope.

(** ** Data *)

(** float64 values are modelled by exact rationals: rounding is not part of
    the model. *)

(** A CSV file with a header line, as pandas sees it: the column names and
    the rows of numbers below them. *)
Record table := { columns : list string; rows : list (list Q) }.

(** What [for v in voltages] can be handed.  A list, tuple or numpy array
    starts afresh every time it is iterated; an iterator or generator is its
    own iterator and is used up by the first pass. *)
Inductive iterable :=
| Sequence (items : list Q)
| Iterator (remaining : list Q).

(** One [for] loop over the iterable: the items it yields and the iterable
    as the loop leaves it. *)
Definition iterate (it : iterable) : list Q * iterable :=
  match it with
  | Sequence items => (items, Sequence items)
  | Iterator remaining => (remaining, Iterator [])
  end.

(** The values of a [dict] of fit parameters. *)
Inductive value :=
| Float (q : Q)
| Nan
| Int (z : Z).

(** The script's world: the hardware behind the callbacks ([rig]), what
    was printed, slept and read from the wall clock, and the files. *)
Record World (W : Type) := {
  rig : W;
  stdout : list string;
  sleeps : list Q;
  time_reads : nat;
  files : string -> option table;
  plots : list string
}.

Definition header : list string :=
  ["voltage"; "power_flip"; "power_target"; "timestamp"].

Definition Qsum (l : list Q) : Q := fold_right Qplus 0 l.

Definition mean (l : list Q) : Q := Qsum l / inject_Z (Z.of_nat (List.length l)).

Fixpoint zip_with {A B C} (f : A -> B -> C) (l1 : list A) (l2 : list B) : list C :=
  match l1, l2 with
  | a :: l1', b :: l2' => f a b :: zip_with f l1' l2'
  | _, _ => []
  end.

Fixpoint index_of (name : string) (names : list string) : option nat :=
  match names with
  | [] => None
  | n :: rest =>
      if String.eqb n name then Some O
      else option_map S (index_of name rest)
  end.

Definition has_column (name : string) (df : table) : bool :=
  match index_of name (columns df) with Some _ => true | None => false end.

(** [df[name].values.astype(float)] *)
Definition column (name : string) (df : table) : result (list Q) :=
  match index_of name (columns df) with
  | Some i => Ok (map (fun row => nth i row 0) (rows df))
  | None => Raise (Exc OtherException ("KeyError: " ++ name))
  end.

Section Script.

Variable W : Type.

(** The k-th reading of [time.time()]. *)
Variable wall_clock : nat -> Q.

(** numpy's answer when the least-squares problem of [np.polyfit] is rank
    deficient (all abscissae equal): it comes out of an SVD and is not
    modelled. *)
Variable rank_deficient_fit : list Q -> list Q -> result (Q * Q).

(** [np.sqrt] *)
Variable np_sqrt : Q -> Q.

Local Abbreviation St := (World W).
Local Abbreviation M := (Py.M St).

Definition print (line : string) : M unit :=
  fun w =>
    (Ok tt,
     {| rig := rig w; stdout := stdout w ++ [line]; sleeps := sleeps w;
        time_reads := time_reads w; files := files w; plots := plots w |}).

Definition sleep (sec : Q) : M unit :=
  fun w =>
    if Qle_bool 0 sec
    then
      (Ok tt,
       {| rig := rig w; stdout := stdout w; sleeps := sleeps w ++ [sec];
          time_reads := time_reads w; files := files w; plots := plots w |})
    else (Raise (Exc ValueError "sleep length must be non-negative"), w).

Definition time_time : M Q :=
  fun w =>
    (Ok (wall_clock (time_reads w)),
     {| rig := rig w; stdout := stdout w; sleeps := sleeps w;
        time_reads := S (time_reads w); files := files w; plots := plots w |}).

(** A call of one of the hardware callbacks. *)
Definition call {A} (f : W -> result A * W) : M A :=
  fun w =>
    let (r, hw) := f (rig w) in
    (r,
     {| rig := hw; stdout := stdout w; sleeps := sleeps w;
        time_reads := time_reads w; files := files w; plots := plots w |}).

(** [df.to_csv(path, index=False)]: the file is replaced. *)
Definition to_csv (path : string) (df : table) : M unit :=
  fun w =>
    (Ok tt,
     {| rig := rig w; stdout := stdout w; sleeps := sleeps w;
        time_reads := time_reads w;
        files := fun p => if String.eqb p path then Some df else files w p;
        plots := plots w |}).

(** [pd.read_csv(path)] *)
Definition read_csv (path : string) : M table :=
  fun w =>
    match files w path with
    | Some df => (Ok df, w)
    | None =>
        (Raise (Exc OSError ("No such file or directory: " ++ path)), w)
    end.

(** The plot of the fit, saved under [path]. *)
Definition savefig (path : string) : M unit :=
  fun w =>
    (Ok tt,
     {| rig := rig w; stdout := stdout w; sleeps := sleeps w;
        time_reads := time_reads w; files := files w;
        plots := plots w ++ [path] |}).

(** ** [measure_loop] *)

Section MeasureLoop.

Variable set_voltage : Q -> W -> result unit * W.
Variable read_power_flip : W -> result Q * W.
Variable flip : string -> W -> result unit * W.
Variable read_power_target : W -> result Q * W.

(** The body of the inner loop. *)
Definition measure_step (delay : Q) (data : list (list Q)) (v : Q)
    : M (list (list Q)) :=
  print ("Setting voltage to " ++ format_f 3 v ++ " V") ;;
  call (set_voltage v) ;;
  call (flip "up") ;;
  sleep delay ;;
  p1 <- call read_power_flip ;;
  call (flip "down") ;;
  sleep delay ;;
  p2 <- call read_power_target ;;
  ts <- time_time ;;
  ret (data ++ [[v; p1; p2; ts]])%list.

(** [for v in voltages: ...] over the items one pass yields. *)
Fixpoint sweep (delay : Q) (vs : list Q) (data : list (list Q))
    : M (list (list Q)) :=
  match vs with
  | [] => ret data
  | v :: vs' => data' <- measure_step delay data v ;; sweep delay vs' data'
  end.

(** [for _ in range(repeats): for v in voltages: ...] *)
Fixpoint sweeps (delay : Q) (repeats : nat) (voltages : iterable)
    (data : list (list Q)) : M (list (list Q)) :=
  match repeats with
  | O => ret data
  | S repeats' =>
      let (vs, voltages') := iterate voltages in
      data' <- sweep delay vs data ;;
      sweeps delay repeats' voltages' data'
  end.

Definition measure_loop (output_csv : string) (voltages : iterable)
    (repeats : Z) (delay : Q) : M unit :=
  data <- sweeps delay (Z.to_nat repeats) voltages [] ;;
  let df := {| columns := header; rows := data |} in
  to_csv output_csv df ;;
  print ("Saved " ++ str_int (Z.of_nat (List.length (rows df)))
           ++ " measurements to " ++ output_csv).

(** ** [measure_loop_test] *)

Definition header_test : list string := ["voltage"; "power_flip"; "timestamp"].

Definition measure_step_test (delay : Q) (data : list (list Q)) (v : Q)
    : M (list (list Q)) :=
  print ("Setting voltage to " ++ format_f 3 v ++ " V") ;;
  call (set_voltage v) ;;
  sleep delay ;;
  p1 <- call read_power_flip ;;
  ts <- time_time ;;
  ret (data ++ [[v; p1; ts]])%list.

Fixpoint sweep_test (delay : Q) (vs : list Q) (data : list (list Q))
    : M (list (list Q)) :=
  match vs with
  | [] => ret data
  | v :: vs' =>
      data' <- measure_step_test delay data v ;; sweep_test delay vs' data'
  end.

Fixpoint sweeps_test (delay : Q) (repeats : nat) (voltages : iterable)
    (data : list (list Q)) : M (list (list Q)) :=
  match repeats with
  | O => ret data
  | S repeats' =>
      let (vs, voltages') := iterate voltages in
      data' <- sweep_test delay vs data ;;
      sweeps_test delay repeats' voltages' data'
  end.

Definition measure_loop_test (output_csv : string) (voltages : iterable)
    (repeats : Z) (delay : Q) : M unit :=
  call (flip "up") ;;
  data <- sweeps_test delay (Z.to_nat repeats) voltages [] ;;
  let df := {| columns := header_test; rows := data |} in
  to_csv output_csv df ;;
  print ("Saved " ++ str_int (Z.of_nat (List.length (rows df)))
           ++ " measurements to " ++ output_csv).

End MeasureLoop.

(** ** [fit_and_interpolate] *)

(** The frame the fit works on: the file's own when it has both [power1]
    and [power2], else its first three columns under new names. *)
Definition calibration_frame (df : table) : result table :=
  if negb (has_column "power1" df) || negb (has_column "power2" df)
  then
    let cols := firstn 3 (columns df) in
    if Nat.eqb (List.length cols) 3
    then Ok {| columns := ["voltage"; "power1"; "power2"];
               rows := map (firstn 3) (rows df) |}
    else Raise (Exc ValueError
                  ("Length mismatch: Expected axis has "
                     ++ str_int (Z.of_nat (List.length cols))
                     ++ " elements, new values have 3 elements"))
  else Ok df.

(** [np.polyfit(x, y, 1)]: the least-squares line through the points, from
    the normal equations. *)
Definition polyfit1 (x y : list Q) : result (Q * Q) :=
  if Nat.eqb (List.length x) 0
  then Raise (Exc TypeError "expected non-empty vector for x")
  else if negb (Nat.eqb (List.length x) (List.length y))
  then Raise (Exc TypeError "expected x and y to have same length")
  else
    let n := inject_Z (Z.of_nat (List.length x)) in
    let sx := Qsum x in
    let sy := Qsum y in
    let sxx := Qsum (zip_with Qmult x x) in
    let sxy := Qsum (zip_with Qmult x y) in
    let det := n * sxx - sx * sx in
    if Qeq_bool det 0
    then rank_deficient_fit x y
    else Ok ((n * sxy - sx * sy) / det, (sxx * sy - sx * sxy) / det).

Definition fit_and_interpolate (calib_csv : string) (out_png : option string)
    : M ((Q -> Q) * list (string * value)) :=
  df0 <- read_csv calib_csv ;;
  df <- lift (calibration_frame df0) ;;
  x <- lift (column "power1" df) ;;
  y <- lift (column "power2" df) ;;
  ab <- lift (polyfit1 x y) ;;
  let a := fst ab in
  let b := snd ab in
  let y_pred := map (fun xi => a * xi + b) x in
  let residuals := zip_with Qminus y y_pred in
  let ss_res := Qsum (map (fun r => r ^ 2) residuals) in
  let ss_tot := Qsum (map (fun yi => (yi - mean y) ^ 2) y) in
  let r2 := if negb (Qeq_bool ss_tot 0)
            then Float (1 - ss_res / ss_tot) else Nan in
  let rmse := np_sqrt (mean (map (fun r => r ^ 2) residuals)) in
  let predict := fun p1 : Q => a * p1 + b in
  let fit_info :=
    [("a", Float a); ("b", Float b); ("r2", r2); ("rmse", Float rmse);
     ("n", Int (Z.of_nat (List.length x)))] in
  match out_png with
  | Some png =>
      if String.eqb png EmptyString then ret tt else savefig png
  | None => ret tt
  end ;;
  ret (predict, fit_info).

(** ** Sums over the data columns *)

Definition count (l : list Q) : Q := inject_Z (Z.of_nat (List.length l)).
Definition sum_sq (l : list Q) : Q := Qsum (zip_with Qmult l l).
Definition sum_xy (x y : list Q) : Q := Qsum (zip_with Qmult x y).

(** The determinant of the normal equations. *)
Definition det (l : list Q) : Q := count l * sum_sq l - Qsum l * Qsum l.

(** The squared distances of the items of [l] from [h], summed. *)
Definition spread (h : Q) (l : list Q) : Q :=
  Qsum (map (fun xi => (xi - h) * (xi - h)) l).

Lemma square_nonneg (q : Q) : 0 <= q * q.
Proof.
  destruct (Qlt_le_dec q 0) as [Hneg | Hpos].
  - setoid_replace (q * q) with ((- q) * (- q)) by ring.
    apply Qmult_le_0_compat; lra.
  - apply Qmult_le_0_compat; exact Hpos.
Qed.

Lemma count_cons (h : Q) (l : list Q) : count (h :: l) == count l + 1.
Proof.
  unfold count. cbn [List.length]. rewrite Nat2Z.inj_succ, <- Z.add_1_r.
  rewrite inject_Z_plus. reflexivity.
Qed.

Lemma spread_expand (h : Q) (l : list Q) :
  spread h l == sum_sq l - 2 * h * Qsum l + count l * h * h.
Proof.
  induction l as [| x l IH].
  - unfold spread, sum_sq, count. cbn. ring.
  - rewrite count_cons. unfold spread, sum_sq in *. cbn [map zip_with Qsum fold_right] in *.
    unfold Qsum in IH. rewrite IH. ring.
Qed.

Lemma spread_nonneg (h : Q) (l : list Q) : 0 <= spread h l.
Proof.
  induction l as [| x l IH]; unfold spread in *; cbn [map Qsum fold_right] in *.
  - lra.
  - pose proof (square_nonneg (x - h)) as Hsq. unfold Qsum in IH |- *. lra.
Qed.

Lemma spread_pos (h v : Q) (l : list Q) :
  In v l -> ~ v == h -> 0 < spread h l.
Proof.
  induction l as [| x l IH]; intros Hin Hne; [contradiction |].
  unfold spread in *. cbn [map Qsum fold_right] in *.
  destruct Hin as [-> | Hin].
  - pose proof (spread_nonneg h l) as Hrest. unfold spread, Qsum in Hrest.
    assert (Hsq : 0 < (v - h) * (v - h)).
    { destruct (Qlt_le_dec v h) as [Hlt | Hge].
      - setoid_replace ((v - h) * (v - h)) with ((h - v) * (h - v)) by ring.
        apply Qmult_lt_0_compat; lra.
      - assert (Hgt : h < v).
        { destruct (Qle_lt_or_eq _ _ Hge) as [Hgt | Heq]; [exact Hgt |].
          exfalso. apply Hne. symmetry. exact Heq. }
        apply Qmult_lt_0_compat; lra. }
    unfold Qsum. lra.
  - pose proof (square_nonneg (x - h)) as Hsq.
    specialize (IH Hin Hne). unfold Qsum in IH |- *. lra.
Qed.

Lemma det_cons (h : Q) (l : list Q) : det (h :: l) == det l + spread h l.
Proof.
  unfold det. rewrite count_cons, spread_expand.
  unfold sum_sq. cbn [zip_with Qsum fold_right]. unfold Qsum. ring.
Qed.

Lemma det_nonneg (l : list Q) : 0 <= det l.
Proof.
  induction l as [| h l IH].
  - unfold det, count, sum_sq. cbn. lra.
  - rewrite det_cons. pose proof (spread_nonneg h l). lra.
Qed.

(** Two different abscissae make the normal equations regular. *)
Lemma det_pos (l : list Q) :
  (exists u v, In u l /\ In v l /\ ~ u == v) -> 0 < det l.
Proof.
  induction l as [| h l IH]; intros (u & v & Hu & Hv & Hne); [contradiction |].
  rewrite det_cons.
  pose proof (det_nonneg l) as Hd. pose proof (spread_nonneg h l) as Hs.
  destruct Hu as [<- | Hu]; destruct Hv as [<- | Hv].
  - exfalso. apply Hne. reflexivity.
  - assert (0 < spread h l) by (apply (spread_pos (v := v)); [exact Hv |];
      intro Heq; apply Hne; symmetry; exact Heq).
    lra.
  - assert (0 < spread h l) by (apply (spread_pos (v := u)); assumption).
    lra.
  - assert (0 < det l) by (apply IH; eauto). lra.
Qed.





(** The sum of squared residuals of the line [a x + b]. *)
Definition sse (a b : Q) (x y : list Q) : Q :=
  Qsum (zip_with (fun xi yi => (yi - (a * xi + b)) * (yi - (a * xi + b))) x y).

Lemma sse_expand (a b : Q) (x : list Q) :
  forall y, List.length x = List.length y ->
  sse a b x y ==
    sum_sq y - 2 * a * sum_xy x y - 2 * b * Qsum y
    + a * a * sum_sq x + 2 * a * b * Qsum x + count x * b * b.
Proof.
  induction x as [| xi x IH]; intros [| yi y] Hlen; try discriminate.
  - unfold sse, sum_sq, sum_xy, count. cbn. ring.
  - injection Hlen as Hlen. specialize (IH y Hlen).
    rewrite count_cons. unfold sse, sum_sq, sum_xy in *.
    cbn [zip_with Qsum fold_right] in *. unfold Qsum in IH. rewrite IH.
    unfold Qsum. ring.
Qed.

Lemma count_pos (x : list Q) : x <> [] -> 0 < count x.
Proof.
  destruct x as [| h t]; [congruence | intros _].
  unfold count. cbn [List.length].
  change 0 with (inject_Z 0). rewrite <- Zlt_Qlt. lia.
Qed.

(** In the regular case the model of [np.polyfit] is the least-squares
    line: no other line has a smaller sum of squared residuals. *)
Lemma polyfit1_least_squares (x y : list Q) (a' b' : Q) :
  0 < det x ->
  polyfit1 x y = Ok (a', b') ->
  forall a b, sse a' b' x y <= sse a b x y.
Proof.
  intros Hdet Hfit a b.
  unfold polyfit1 in Hfit.
  destruct (Nat.eqb (List.length x) 0) eqn:Hx0; [discriminate |].
  destruct (Nat.eqb (List.length x) (List.length y)) eqn:Hlen; [| discriminate].
  apply Nat.eqb_eq in Hlen. cbn [negb] in Hfit.
  fold (count x) (sum_sq x) (sum_xy x y) (det x) in Hfit.
  destruct (Qeq_bool (det x) 0) eqn:Hz.
  { apply Qeq_bool_iff in Hz. lra. }
  injection Hfit as <- <-.
  assert (Hn : 0 < count x).
  { apply count_pos. intros ->. discriminate. }
  assert (Hgap :
    sse a b x y
    - sse ((count x * sum_xy x y - Qsum x * Qsum y) / det x)
          ((sum_sq x * Qsum y - Qsum x * sum_xy x y) / det x) x y
    == ((count x * (b - (sum_sq x * Qsum y - Qsum x * sum_xy x y) / det x)
         + Qsum x * (a - (count x * sum_xy x y - Qsum x * Qsum y) / det x))
        * (count x * (b - (sum_sq x * Qsum y - Qsum x * sum_xy x y) / det x)
           + Qsum x * (a - (count x * sum_xy x y - Qsum x * Qsum y) / det x))
        + (a - (count x * sum_xy x y - Qsum x * Qsum y) / det x)
          * (a - (count x * sum_xy x y - Qsum x * Qsum y) / det x) * det x)
       / count x).
  { rewrite !(sse_expand _ _ x y Hlen). unfold det. field.
    unfold det in Hdet. split; lra. }
  assert (Hnum : forall p q, 0 <= (p * p + q * q * det x) / count x).
  { intros p q. apply Qle_shift_div_l; [exact Hn |].
    pose proof (square_nonneg p). pose proof (square_nonneg q).
    assert (0 <= q * q * det x) by (apply Qmult_le_0_compat; lra).
    lra. }
  match type of Hgap with
  | _ == (?p * ?p + ?q * ?q * _) / _ => pose proof (Hnum p q) as Hge
  end.
  rewrite <- Hgap in Hge. lra.
Qed.

(** ** Facts about [fit_and_interpolate] *)

Lemma column_length (name : string) (df : table) (col : list Q) :
  column name df = Ok col -> List.length col = List.length (rows df).
Proof.
  unfold column. destruct (index_of name (columns df)); [| discriminate].
  intro H. injection H as <-. apply length_map.
Qed.

Lemma calibration_frame_rows (df0 df : table) :
  calibration_frame df0 = Ok df ->
  List.length (rows df) = List.length (rows df0).
Proof.
  unfold calibration_frame.
  destruct (negb (has_column "power1" df0) || negb (has_column "power2" df0))%bool.
  - destruct (Nat.eqb _ 3); [| discriminate].
    intro H. injection H as <-. cbn. apply length_map.
  - intro H. injection H as <-. reflexivity.
Qed.

(** The frame the fit works on always has its two power columns. *)
Lemma calibration_frame_columns (df0 df : table) :
  calibration_frame df0 = Ok df ->
  exists x y, column "power1" df = Ok x /\ column "power2" df = Ok y.
Proof.
  unfold calibration_frame.
  destruct (has_column "power1" df0) eqn:H1;
    destruct (has_column "power2" df0) eqn:H2; cbn [negb orb].
  - intro H. injection H as <-.
    unfold has_column in H1, H2. unfold column.
    destruct (index_of "power1" (columns df0)); [| discriminate].
    destruct (index_of "power2" (columns df0)); [| discriminate].
    eauto.
  - destruct (Nat.eqb _ 3); [| discriminate].
    intro H. injection H as <-. unfold column. cbn. eauto.
  - destruct (Nat.eqb _ 3); [| discriminate].
    intro H. injection H as <-. unfold column. cbn. eauto.
  - destruct (Nat.eqb _ 3); [| discriminate].
    intro H. injection H as <-. unfold column. cbn. eauto.
Qed.

(** What a successful run returns, once [np.polyfit] has answered. *)
Lemma fit_and_interpolate_core (calib_csv : string) (out_png : option string)
    (w : St) (df0 df : table) (x y : list Q) (a b : Q) :
  files w calib_csv = Some df0 ->
  calibration_frame df0 = Ok df ->
  column "power1" df = Ok x ->
  column "power2" df = Ok y ->
  polyfit1 x y = Ok (a, b) ->
  exists predict r2 rmse w',
    fit_and_interpolate calib_csv out_png w =
      (Ok (predict,
           [("a", Float a); ("b", Float b); ("r2", r2); ("rmse", Float rmse);
            ("n", Int (Z.of_nat (List.length (rows df0))))]), w') /\
    (forall p, predict p = a * p + b) /\
    files w' = files w.
Proof.
  intros Hfile Hframe Hx Hy Hfit.
  assert (Hn : List.length x = List.length (rows df0)).
  { rewrite (column_length _ _ Hx). apply calibration_frame_rows. exact Hframe. }
  unfold fit_and_interpolate, bind, read_csv, lift.
  rewrite Hfile, Hframe, Hx, Hy, Hfit. cbn [fst snd]. rewrite Hn.
  destruct out_png as [png |]; [destruct (String.eqb png EmptyString) |];
    unfold ret, savefig; cbn; eexists _, _, _, _; repeat split.
Qed.



(** Two different [power1] values are enough for the fit to return. *)
Lemma polyfit1_regular (x y : list Q) :
  List.length x = List.length y ->
  (exists u v, In u x /\ In v x /\ ~ u == v) ->
  exists a b, polyfit1 x y = Ok (a, b).
Proof.
  intros Hlen Htwo. pose proof (@det_pos x Htwo) as Hdet.
  unfold polyfit1.
  destruct (Nat.eqb (List.length x) 0) eqn:Hx0.
  { apply Nat.eqb_eq in Hx0. destruct Htwo as (u & _ & Hu & _).
    destruct x; [contradiction | discriminate]. }
  rewrite <- Hlen, Nat.eqb_refl. cbn [negb].
  fold (count x) (sum_sq x) (sum_xy x y) (det x).
  destruct (Qeq_bool (det x) 0) eqn:Hz.
  { apply Qeq_bool_iff in Hz. lra. }
  eauto.
Qed.

Lemma fit_and_interpolate_two_points (calib_csv : string)
    (out_png : option string) (w : St) (df0 df : table) (x y : list Q) :
  files w calib_csv = Some df0 ->
  calibration_frame df0 = Ok df ->
  column "power1" df = Ok x ->
  column "power2" df = Ok y ->
  (exists u v, In u x /\ In v x /\ ~ u == v) ->
  exists predict info w',
    fit_and_interpolate calib_csv out_png w = (Ok (predict, info), w') /\
    map fst info = ["a"; "b"; "r2"; "rmse"; "n"].
Proof.
  intros Hfile Hframe Hx Hy Htwo.
  assert (Hlen : List.length x = List.length y).
  { rewrite (column_length _ _ Hx), (column_length _ _ Hy). reflexivity. }
  destruct (@polyfit1_regular x y Hlen Htwo) as (a & b & Hfit).
  destruct (fit_and_interpolate_core calib_csv out_png w Hfile Hframe Hx Hy Hfit)
    as (predict & r2 & rmse & w' & Hrun & _).
  eexists _, _, _. split; [exact Hrun | reflexivity].
Qed.

(** ** More about [fit_and_interpolate] *)







(** ** [measure_loop] with arbitrary callbacks *)

Section AnyCallbacks.

Variable set_voltage : Q -> W -> result unit * W.
Variable read_power_flip : W -> result Q * W.
Variable flip : string -> W -> result unit * W.
Variable read_power_target : W -> result Q * W.

(** Rows of four values. *)
Definition four_values (data : list (list Q)) : Prop :=
  Forall (fun row => List.length row = 4%nat) data.

(** A statement that leaves the files alone and, when it returns rows,
    returns rows of four values. *)
Definition collects (m : M (list (list Q))) : Prop :=
  forall w,
    files (snd (m w)) = files w /\
    match fst (m w) with
    | Ok data => four_values data
    | Raise _ => True
    end.

Lemma measure_step_collects (delay : Q) (data : list (list Q)) (v : Q) :
  four_values data ->
  collects (measure_step set_voltage read_power_flip flip read_power_target
              delay data v).
Proof.
  intros Hdata w.
  unfold measure_step, bind, print, call, sleep, time_time, ret.
  cbn -[Qle_bool format_f].
  destruct (set_voltage v (rig w)) as [[[] | e] r1]; cbn -[Qle_bool format_f];
    [| auto].
  destruct (flip "up" r1) as [[[] | e] r2]; cbn -[Qle_bool format_f]; [| auto].
  destruct (Qle_bool 0 delay); cbn -[Qle_bool format_f]; [| auto].
  destruct (read_power_flip r2) as [[p1 | e] r3]; cbn -[Qle_bool format_f];
    [| auto].
  destruct (flip "down" r3) as [[[] | e] r4]; cbn -[Qle_bool format_f]; [| auto].
  destruct (read_power_target r4) as [[p2 | e] r5]; cbn -[Qle_bool format_f];
    [| auto].
  split; [reflexivity |].
  apply Forall_app. split; [exact Hdata |]. repeat constructor.
Qed.

Lemma sweep_collects (delay : Q) (vs : list Q) :
  forall data, four_values data ->
    collects (sweep set_voltage read_power_flip flip read_power_target
                delay vs data).
Proof.
  induction vs as [| v vs IH]; intros data Hdata w; cbn [sweep].
  - unfold ret. cbn. auto.
  - unfold bind.
    destruct (measure_step_collects delay v Hdata w) as [Hfiles Hrows].
    destruct (measure_step _ _ _ _ delay data v w) as [[data' | e] w1];
      cbn [fst snd] in *; [| auto].
    destruct (IH data' Hrows w1) as [Hfiles' Hrows'].
    rewrite Hfiles', Hfiles. auto.
Qed.

Lemma sweeps_collects (delay : Q) (repeats : nat) :
  forall voltages data, four_values data ->
    collects (sweeps set_voltage read_power_flip flip read_power_target
                delay repeats voltages data).
Proof.
  induction repeats as [| r IH]; intros voltages data Hdata w; cbn [sweeps].
  - unfold ret. cbn. auto.
  - destruct (iterate voltages) as [vs voltages'].
    unfold bind.
    destruct (sweep_collects delay vs Hdata w) as [Hfiles Hrows].
    destruct (sweep _ _ _ _ delay vs data w) as [[data' | e] w1];
      cbn [fst snd] in *; [| auto].
    destruct (IH voltages' data' Hrows w1) as [Hfiles' Hrows'].
    rewrite Hfiles', Hfiles. auto.
Qed.

(** X16: [measure_loop] saves once, at the end, whatever the callbacks
    are.  When it raises (a callback raised, or [time.sleep] refused the
    delay), no file has been touched: the measurements taken so far are
    lost.  When it returns, the output file holds the four header columns
    and rows of four values each, and no other file has changed. *)
Theorem measure_loop_saves_at_the_end (output_csv : string)
    (voltages : iterable) (repeats : Z) (delay : Q) (w : St) :
  let run :=
    measure_loop set_voltage read_power_flip flip read_power_target
      output_csv voltages repeats delay w in
  match fst run with
  | Raise _ => files (snd run) = files w
  | Ok _ =>
      (exists data,
          files (snd run) output_csv = Some {| columns := header; rows := data |} /\
          four_values data) /\
      (forall p, p <> output_csv -> files (snd run) p = files w p)
  end.
Proof.
  cbn zeta. unfold measure_loop, bind.
  destruct (@sweeps_collects delay (Z.to_nat repeats) voltages []
              (Forall_nil _) w) as [Hfiles Hrows].
  destruct (sweeps _ _ _ _ delay (Z.to_nat repeats) voltages [] w)
    as [[data | e] w1]; cbn [fst snd] in *; [| exact Hfiles].
  unfold to_csv, print. cbn [fst snd files rows]. split.
  - exists data. rewrite String.eqb_refl. auto.
  - intros p Hp. apply String.eqb_neq in Hp. rewrite Hp, Hfiles. reflexivity.
Qed.

End AnyCallbacks.

End Script.

(** ** A bench that records what the callbacks do *)

Inductive event :=
| SetVoltage (v : Q)
| Flip (pos : string)
| ReadFlip (p : Q)
| ReadTarget (p : Q).

Record Rig := { events : list event; flip_reads : nat; target_reads : nat }.

Section Recording.

(** The k-th reading of either power meter and of the wall clock. *)
Variables flip_power target_power wall_clock : nat -> Q.

Local Abbreviation St := (World Rig).

Definition set_voltage (v : Q) (r : Rig) : result unit * Rig :=
  (Ok tt,
   {| events := events r ++ [SetVoltage v];
      flip_reads := flip_reads r; target_reads := target_reads r |}).

(** [flip_fn] of the script: only ["up"] and ["down"] are positions. *)
Definition flip (pos : string) (r : Rig) : result unit * Rig :=
  if (String.eqb pos "up" || String.eqb pos "down")%bool
  then
    (Ok tt,
     {| events := events r ++ [Flip pos];
        flip_reads := flip_reads r; target_reads := target_reads r |})
  else (Raise (Exc ValueError "flip position must be 'up' or 'down'"), r).

Definition read_power_flip (r : Rig) : result Q * Rig :=
  let p := flip_power (flip_reads r) in
  (Ok p,
   {| events := events r ++ [ReadFlip p];
      flip_reads := S (flip_reads r); target_reads := target_reads r |}).

Definition read_power_target (r : Rig) : result Q * Rig :=
  let p := target_power (target_reads r) in
  (Ok p,
   {| events := events r ++ [ReadTarget p];
      flip_reads := flip_reads r; target_reads := S (target_reads r) |}).

Definition recorded_loop : string -> iterable -> Z -> Q -> Py.M St unit :=
  measure_loop wall_clock set_voltage read_power_flip flip read_power_target.

(** The row that the measurement number [k] of a run is expected to store
    for the voltage [v], when [f], [t] and [c] readings of the two meters
    and the clock came before the run. *)
Fixpoint expected_rows (f t c : nat) (vs : list Q) : list (list Q) :=
  match vs with
  | [] => []
  | v :: vs' =>
      [v; flip_power f; target_power t; wall_clock c]
        :: expected_rows (S f) (S t) (S c) vs'
  end.

(** What the bench is expected to have seen for these voltages. *)
Fixpoint expected_events (f t : nat) (vs : list Q) : list event :=
  match vs with
  | [] => []
  | v :: vs' =>
      [SetVoltage v; Flip "up"; ReadFlip (flip_power f); Flip "down";
       ReadTarget (target_power t)] ++ expected_events (S f) (S t) vs'
  end.

(** The world after one pass of the loop body. *)
Definition step_world (delay : Q) (w : St) (v : Q) : St :=
  {| rig :=
       {| events :=
            events (rig w)
              ++ [SetVoltage v; Flip "up";
                  ReadFlip (flip_power (flip_reads (rig w))); Flip "down";
                  ReadTarget (target_power (target_reads (rig w)))];
          flip_reads := S (flip_reads (rig w));
          target_reads := S (target_reads (rig w)) |};
     stdout := stdout w ++ ["Setting voltage to " ++ format_f 3 v ++ " V"];
     sleeps := sleeps w ++ [delay; delay];
     time_reads := S (time_reads w);
     files := files w;
     plots := plots w |}.

Lemma measure_step_recorded (delay : Q) (data : list (list Q)) (v : Q) (w : St) :
  0 <= delay ->
  measure_step wall_clock set_voltage read_power_flip flip read_power_target
    delay data v w
  = (Ok (data ++ [[v; flip_power (flip_reads (rig w));
                   target_power (target_reads (rig w));
                   wall_clock (time_reads w)]])%list,
     step_world delay w v).
Proof.
  intro Hdelay. apply Qle_bool_iff in Hdelay.
  unfold measure_step, bind, print, call, sleep, time_time, ret, step_world.
  cbn -[Qle_bool format_f]. rewrite Hdelay.
  cbn -[Qle_bool format_f].
  repeat rewrite <- app_assoc. reflexivity.
Qed.

Lemma sweep_recorded (delay : Q) (vs : list Q) :
  0 <= delay ->
  forall (data : list (list Q)) (w : St),
    sweep wall_clock set_voltage read_power_flip flip read_power_target
      delay vs data w
    = (Ok (data ++ expected_rows (flip_reads (rig w)) (target_reads (rig w))
                     (time_reads w) vs)%list,
       fold_left (step_world delay) vs w).
Proof.
  intro Hdelay. induction vs as [| v vs IH]; intros data w; cbn [sweep].
  - unfold ret. cbn. now rewrite app_nil_r.
  - unfold bind. rewrite (measure_step_recorded data v w Hdelay).
    rewrite IH. cbn. now rewrite <- app_assoc.
Qed.

Lemma fold_step_counters (delay : Q) (vs : list Q) :
  forall w : St,
    let w' := fold_left (step_world delay) vs w in
    flip_reads (rig w') = (flip_reads (rig w) + List.length vs)%nat /\
    target_reads (rig w') = (target_reads (rig w) + List.length vs)%nat /\
    time_reads w' = (time_reads w + List.length vs)%nat /\
    files w' = files w /\
    events (rig w') =
      (events (rig w)
         ++ expected_events (flip_reads (rig w)) (target_reads (rig w)) vs)%list.
Proof.
  induction vs as [| v vs IH]; intro w; cbn [fold_left List.length].
  - cbn. rewrite !Nat.add_0_r, app_nil_r. auto.
  - destruct (IH (step_world delay w v)) as (Hf & Ht & Hc & Hfiles & Hev).
    cbn zeta. rewrite Hf, Ht, Hc, Hfiles, Hev. cbn.
    rewrite <- app_assoc. repeat split; try lia. 
Qed.

Lemma expected_rows_app (vs1 vs2 : list Q) :
  forall f t c,
    expected_rows f t c (vs1 ++ vs2) =
      (expected_rows f t c vs1
         ++ expected_rows (f + List.length vs1) (t + List.length vs1)
              (c + List.length vs1) vs2)%list.
Proof.
  induction vs1 as [| v vs1 IH]; intros f t c; cbn.
  - now rewrite !Nat.add_0_r.
  - rewrite IH. now rewrite !Nat.add_succ_r.
Qed.

Lemma expected_events_app (vs1 vs2 : list Q) :
  forall f t,
    expected_events f t (vs1 ++ vs2) =
      (expected_events f t vs1
         ++ expected_events (f + List.length vs1) (t + List.length vs1) vs2)%list.
Proof.
  induction vs1 as [| v vs1 IH]; intros f t; cbn.
  - now rewrite !Nat.add_0_r.
  - rewrite IH. now rewrite !Nat.add_succ_r.
Qed.

Lemma expected_rows_length (vs : list Q) :
  forall f t c, List.length (expected_rows f t c vs) = List.length vs.
Proof. induction vs; intros; cbn; auto. Qed.

(** The voltages of [r] whole sweeps. *)
Definition whole_sweeps (vs : list Q) (r : nat) : list Q := List.concat (repeat vs r).

Lemma whole_sweeps_length (vs : list Q) (r : nat) :
  List.length (whole_sweeps vs r) = (r * List.length vs)%nat.
Proof.
  unfold whole_sweeps. induction r as [| r IH]; cbn; [reflexivity |].
  now rewrite length_app, IH.
Qed.

(** Over a list, tuple or array the outer loop repeats the whole sweep. *)
Lemma sweeps_sequence (delay : Q) (vs : list Q) (r : nat) :
  0 <= delay ->
  forall (data : list (list Q)) (w : St),
    sweeps wall_clock set_voltage read_power_flip flip read_power_target
      delay r (Sequence vs) data w
    = (Ok (data ++ expected_rows (flip_reads (rig w)) (target_reads (rig w))
                     (time_reads w) (whole_sweeps vs r))%list,
       fold_left (step_world delay) (whole_sweeps vs r) w).
Proof.
  intro Hdelay. unfold whole_sweeps.
  induction r as [| r IH]; intros data w; cbn [sweeps iterate repeat List.concat].
  - unfold ret. cbn. now rewrite app_nil_r.
  - unfold bind. rewrite (sweep_recorded vs Hdelay). rewrite IH.
    destruct (fold_step_counters delay vs w) as (Hf & Ht & Hc & _).
    cbn zeta in Hf, Ht, Hc. rewrite Hf, Ht, Hc.
    rewrite expected_rows_app, fold_left_app, <- app_assoc. reflexivity.
Qed.

(** Over an iterator the first pass uses it up: whatever the number of
    repeats, one sweep is measured. *)
Lemma sweeps_iterator (delay : Q) (vs : list Q) (r : nat) :
  0 <= delay ->
  forall (data : list (list Q)) (w : St),
    sweeps wall_clock set_voltage read_power_flip flip read_power_target
      delay (S r) (Iterator vs) data w
    = (Ok (data ++ expected_rows (flip_reads (rig w)) (target_reads (rig w))
                     (time_reads w) vs)%list,
       fold_left (step_world delay) vs w).
Proof.
  intros Hdelay data w. cbn [sweeps iterate].
  unfold bind. rewrite (sweep_recorded vs Hdelay).
  generalize (data ++ expected_rows (flip_reads (rig w)) (target_reads (rig w))
                        (time_reads w) vs)%list as d.
  generalize (fold_left (step_world delay) vs w) as w1.
  induction r as [| r IH]; intros w1 d; cbn [sweeps iterate sweep].
  - reflexivity.
  - unfold bind, ret at 1. apply IH.
Qed.

(** X17: for a sequence of voltages (a list, tuple or array), [measure_loop]
    writes the four header columns and one row per (repeat, voltage) pair
    in sweep order, each with the voltage that was set and the two readings
    taken for it. *)
Lemma measure_loop_sequence (output_csv : string) (vs : list Q) (repeats : Z)
    (delay : Q) (w : St) :
  0 <= delay ->
  let all := whole_sweeps vs (Z.to_nat repeats) in
  let table_rows :=
    expected_rows (flip_reads (rig w)) (target_reads (rig w)) (time_reads w) all in
  exists w',
    recorded_loop output_csv (Sequence vs) repeats delay w = (Ok tt, w') /\
    files w' output_csv = Some {| columns := header; rows := table_rows |} /\
    List.length table_rows = (Z.to_nat repeats * List.length vs)%nat /\
    events (rig w') =
      (events (rig w)
         ++ expected_events (flip_reads (rig w)) (target_reads (rig w)) all)%list.
Proof.
  intros Hdelay all table_rows.
  unfold recorded_loop, measure_loop, bind.
  rewrite (sweeps_sequence vs (Z.to_nat repeats) Hdelay). cbn [app].
  unfold to_csv, print. cbn.
  destruct (fold_step_counters delay all w) as (_ & _ & _ & _ & Hev).
  cbn zeta in Hev. fold all. fold table_rows.
  eexists. split; [reflexivity |]. cbn. rewrite String.eqb_refl.
  split; [reflexivity |]. split.
  - unfold table_rows. rewrite expected_rows_length. apply whole_sweeps_length.
  - exact Hev.
Qed.

(** With an iterator and [repeats >= 1] the file holds one sweep only. *)
Lemma measure_loop_iterator (output_csv : string) (vs : list Q) (repeats : Z)
    (delay : Q) (w : St) :
  0 <= delay ->
  (1 <= repeats)%Z ->
  exists w',
    recorded_loop output_csv (Iterator vs) repeats delay w = (Ok tt, w') /\
    files w' output_csv =
      Some {| columns := header;
              rows := expected_rows (flip_reads (rig w)) (target_reads (rig w))
                        (time_reads w) vs |}.
Proof.
  intros Hdelay Hrep.
  unfold recorded_loop, measure_loop, bind.
  destruct (Z.to_nat repeats) as [| r] eqn:Hr; [lia |].
  rewrite (sweeps_iterator vs r Hdelay). cbn [app].
  unfold to_csv, print. cbn.
  eexists. split; [reflexivity |]. cbn. now rewrite String.eqb_refl.
Qed.


(** ** More about [measure_loop] *)

Lemma fold_step_console (delay : Q) (vs : list Q) :
  forall w : St,
    stdout (fold_left (step_world delay) vs w) =
      (stdout w
         ++ map (fun v => ("Setting voltage to " ++ format_f 3 v ++ " V")%string) vs)%list /\
    plots (fold_left (step_world delay) vs w) = plots w.
Proof.
  induction vs as [| v vs IH]; intro w; cbn [fold_left map].
  - now rewrite app_nil_r.
  - destruct (IH (step_world delay w v)) as [Hout Hplots].
    rewrite Hout, Hplots. cbn [stdout plots step_world].
    now rewrite <- app_assoc.
Qed.

(** X18: a run of [measure_loop] over a sequence of voltages prints one
    line per voltage set and a last line with the number of measurements,
    [repeats] times the number of voltages; it replaces the output file and
    touches no other file. *)
Theorem measure_loop_console_and_files (output_csv : string) (vs : list Q)
    (repeats : Z) (delay : Q) (w : St) :
  0 <= delay ->
  exists w',
    recorded_loop output_csv (Sequence vs) repeats delay w = (Ok tt, w') /\
    stdout w' =
      (stdout w
         ++ map (fun v => ("Setting voltage to " ++ format_f 3 v ++ " V")%string)
              (whole_sweeps vs (Z.to_nat repeats))
         ++ [("Saved "
                ++ str_int (Z.of_nat (Z.to_nat repeats * List.length vs))
                ++ " measurements to " ++ output_csv)%string])%list /\
    (forall p, p <> output_csv -> files w' p = files w p).
Proof.
  intro Hdelay.
  unfold recorded_loop, measure_loop, bind.
  rewrite (sweeps_sequence vs (Z.to_nat repeats) Hdelay). cbn [app].
  unfold to_csv, print. cbn [rows].
  destruct (fold_step_counters delay (whole_sweeps vs (Z.to_nat repeats)) w)
    as (_ & _ & _ & Hfiles & _).
  destruct (fold_step_console delay (whole_sweeps vs (Z.to_nat repeats)) w)
    as [Hout _].
  cbn zeta in Hfiles.
  eexists. split; [reflexivity |]. cbn [stdout files]. split.
  - rewrite Hout, expected_rows_length, whole_sweeps_length.
    now rewrite <- app_assoc.
  - intros p Hp. apply String.eqb_neq in Hp. rewrite Hp, Hfiles. reflexivity.
Qed.

(** X19: with a negative [delay] and at least one voltage to measure,
    [measure_loop] raises the [ValueError] of [time.sleep].  By then the
    first voltage is set and the mirror flipped up; no reading was taken
    and no file was written. *)
Theorem measure_loop_negative_delay (output_csv : string) (v : Q) (vs : list Q)
    (repeats : Z) (delay : Q) (w : St) :
  delay < 0 ->
  (1 <= repeats)%Z ->
  exists w',
    recorded_loop output_csv (Sequence (v :: vs)) repeats delay w =
      (Raise (Exc ValueError "sleep length must be non-negative"), w') /\
    events (rig w') = (events (rig w) ++ [SetVoltage v; Flip "up"])%list /\
    flip_reads (rig w') = flip_reads (rig w) /\
    target_reads (rig w') = target_reads (rig w) /\
    files w' = files w.
Proof.
  intros Hdelay Hrep.
  assert (Hneg : Qle_bool 0 delay = false).
  { destruct (Qle_bool 0 delay) eqn:E; [| reflexivity].
    apply Qle_bool_iff in E. lra. }
  unfold recorded_loop, measure_loop.
  destruct (Z.to_nat repeats) as [| r] eqn:Hr; [lia |].
  cbn [sweeps iterate sweep].
  unfold measure_step, bind, print, call, sleep.
  cbn -[Qle_bool format_f]. rewrite Hneg.
  eexists. split; [reflexivity |]. cbn.
  rewrite <- app_assoc. auto.
Qed.

(** ** About [measure_loop_test] *)

Definition recorded_loop_test : string -> iterable -> Z -> Q -> Py.M St unit :=
  measure_loop_test wall_clock set_voltage read_power_flip flip.

Fixpoint expected_rows_test (f c : nat) (vs : list Q) : list (list Q) :=
  match vs with
  | [] => []
  | v :: vs' =>
      [v; flip_power f; wall_clock c] :: expected_rows_test (S f) (S c) vs'
  end.

Fixpoint expected_events_test (f : nat) (vs : list Q) : list event :=
  match vs with
  | [] => []
  | v :: vs' =>
      [SetVoltage v; ReadFlip (flip_power f)] ++ expected_events_test (S f) vs'
  end.

Definition step_world_test (delay : Q) (w : St) (v : Q) : St :=
  {| rig :=
       {| events :=
            events (rig w)
              ++ [SetVoltage v; ReadFlip (flip_power (flip_reads (rig w)))];
          flip_reads := S (flip_reads (rig w));
          target_reads := target_reads (rig w) |};
     stdout := stdout w ++ ["Setting voltage to " ++ format_f 3 v ++ " V"];
     sleeps := sleeps w ++ [delay];
     time_reads := S (time_reads w);
     files := files w;
     plots := plots w |}.

Lemma sweep_test_recorded (delay : Q) (vs : list Q) :
  0 <= delay ->
  forall (data : list (list Q)) (w : St),
    sweep_test wall_clock set_voltage read_power_flip delay vs data w
    = (Ok (data ++ expected_rows_test (flip_reads (rig w)) (time_reads w) vs)%list,
       fold_left (step_world_test delay) vs w).
Proof.
  intro Hdelay. apply Qle_bool_iff in Hdelay.
  induction vs as [| v vs IH]; intros data w; cbn [sweep_test].
  - unfold ret. cbn. now rewrite app_nil_r.
  - unfold bind at 1.
    assert (Hstep :
      measure_step_test wall_clock set_voltage read_power_flip delay data v w
      = (Ok (data ++ [[v; flip_power (flip_reads (rig w));
                       wall_clock (time_reads w)]])%list,
         step_world_test delay w v)).
    { unfold measure_step_test, bind, print, call, sleep, time_time, ret,
        step_world_test.
      cbn -[Qle_bool format_f]. rewrite Hdelay. cbn -[Qle_bool format_f].
      repeat rewrite <- app_assoc. reflexivity. }
    rewrite Hstep, IH. cbn. now rewrite <- app_assoc.
Qed.

Lemma fold_step_test_counters (delay : Q) (vs : list Q) :
  forall w : St,
    let w' := fold_left (step_world_test delay) vs w in
    flip_reads (rig w') = (flip_reads (rig w) + List.length vs)%nat /\
    target_reads (rig w') = target_reads (rig w) /\
    time_reads w' = (time_reads w + List.length vs)%nat /\
    files w' = files w /\
    events (rig w') =
      (events (rig w) ++ expected_events_test (flip_reads (rig w)) vs)%list.
Proof.
  induction vs as [| v vs IH]; intro w; cbn [fold_left List.length].
  - cbn. rewrite !Nat.add_0_r, app_nil_r. auto.
  - destruct (IH (step_world_test delay w v)) as (Hf & Ht & Hc & Hfiles & Hev).
    cbn zeta. rewrite Hf, Ht, Hc, Hfiles, Hev. cbn.
    rewrite <- app_assoc. repeat split; lia.
Qed.

Lemma expected_rows_test_app (vs1 vs2 : list Q) :
  forall f c,
    expected_rows_test f c (vs1 ++ vs2) =
      (expected_rows_test f c vs1
         ++ expected_rows_test (f + List.length vs1) (c + List.length vs1) vs2)%list.
Proof.
  induction vs1 as [| v vs1 IH]; intros f c; cbn.
  - now rewrite !Nat.add_0_r.
  - rewrite IH. now rewrite !Nat.add_succ_r.
Qed.

Lemma expected_rows_test_length (vs : list Q) :
  forall f c, List.length (expected_rows_test f c vs) = List.length vs.
Proof. induction vs; intros; cbn; auto. Qed.

Lemma sweeps_test_sequence (delay : Q) (vs : list Q) (r : nat) :
  0 <= delay ->
  forall (data : list (list Q)) (w : St),
    sweeps_test wall_clock set_voltage read_power_flip delay r (Sequence vs) data w
    = (Ok (data ++ expected_rows_test (flip_reads (rig w)) (time_reads w)
                     (whole_sweeps vs r))%list,
       fold_left (step_world_test delay) (whole_sweeps vs r) w).
Proof.
  intro Hdelay. unfold whole_sweeps.
  induction r as [| r IH]; intros data w;
    cbn [sweeps_test iterate repeat List.concat].
  - unfold ret. cbn. now rewrite app_nil_r.
  - unfold bind. rewrite (sweep_test_recorded vs Hdelay). rewrite IH.
    destruct (fold_step_test_counters delay vs w) as (Hf & _ & Hc & _).
    cbn zeta in Hf, Hc. rewrite Hf, Hc.
    rewrite expected_rows_test_app, fold_left_app, <- app_assoc. reflexivity.
Qed.

(** X20: [measure_loop_test] over a sequence of voltages flips the mirror
    up once, before the first voltage, and never again; it never reads the
    target power meter; and it writes the three columns voltage, power_flip
    and timestamp with one row per (repeat, voltage) pair, each with the
    voltage set and the reading of the flip-arm meter taken for it. *)
Theorem measure_loop_test_sequence (output_csv : string) (vs : list Q)
    (repeats : Z) (delay : Q) (w : St) :
  0 <= delay ->
  let all := whole_sweeps vs (Z.to_nat repeats) in
  let table_rows := expected_rows_test (flip_reads (rig w)) (time_reads w) all in
  exists w',
    recorded_loop_test output_csv (Sequence vs) repeats delay w = (Ok tt, w') /\
    files w' output_csv = Some {| columns := header_test; rows := table_rows |} /\
    List.length table_rows = (Z.to_nat repeats * List.length vs)%nat /\
    events (rig w') =
      (events (rig w) ++ Flip "up"
         :: expected_events_test (flip_reads (rig w)) all)%list /\
    target_reads (rig w') = target_reads (rig w).
Proof.
  intros Hdelay all table_rows.
  unfold recorded_loop_test, measure_loop_test.
  unfold bind at 1. unfold call at 1. cbn [flip String.eqb Ascii.eqb Bool.eqb orb rig].
  unfold bind.
  rewrite (sweeps_test_sequence vs (Z.to_nat repeats) Hdelay). cbn [app].
  unfold to_csv, print. cbn [rows].
  match goal with
  | |- context [fold_left (step_world_test delay) _ ?w1] =>
      destruct (fold_step_test_counters delay all w1) as (_ & Ht & _ & _ & Hev)
  end.
  cbn zeta in Ht, Hev. cbn [rig events flip_reads target_reads time_reads] in *.
  fold all. fold table_rows.
  eexists. split; [reflexivity |]. cbn [files rig]. rewrite String.eqb_refl.
  split; [reflexivity |]. split; [| split].
  - unfold table_rows. rewrite expected_rows_test_length.
    apply whole_sweeps_length.
  - rewrite Hev. now rewrite <- app_assoc.
  - exact Ht.
Qed.

(** ** From the measurement to the fit *)



Section FitAfterMeasure.

Variable rank_deficient_fit : list Q -> list Q -> result (Q * Q).
Variable np_sqrt : Q -> Q.


End FitAfterMeasure.
End Recording.

(** ** A concrete run *)

(** Readings that count up from zero. *)
Definition ramp (k : nat) : Q := inject_Z (Z.of_nat k).



Definition bench0 : World Rig :=
  {| rig := {| events := []; flip_reads := 0; target_reads := 0 |};
     stdout := []; sleeps := []; time_reads := 0;
     files := fun _ => None; plots := [] |}.






(** A file with fewer than three columns and no power columns is refused
    when its columns are renamed. *)
Example fit_of_two_column_file_raises :
  calibration_frame {| columns := ["voltage"; "power"]; rows := [[1; 2]] |}
  = Raise (Exc ValueError
             "Length mismatch: Expected axis has 2 elements, new values have 3 elements").
Proof. reflexivity. Qed.

(** C5 on an iterator: [measure_loop(..., voltages=iter([1.0, 2.0]),
    repeats=2)] sets each voltage once and writes two rows, where two whole
    sweeps would be four. *)
Theorem measure_loop_iterator_one_sweep :
  let w := snd (recorded_loop ramp ramp ramp "flip_mirror_calib.csv"
                  (Iterator [1; 2]) 2 (1 # 4) bench0) in
  files w "flip_mirror_calib.csv" =
    Some {| columns := header; rows := [[1; 0; 0; 0]; [2; 1; 1; 1]] |} /\
  events (rig w) =
    [SetVoltage 1; Flip "up"; ReadFlip 0; Flip "down"; ReadTarget 0;
     SetVoltage 2; Flip "up"; ReadFlip 1; Flip "down"; ReadTarget 1].
Proof. split; reflexivity. Qed.

(** The same call on the list [[1.0, 2.0]] measures both sweeps. *)
Example measure_loop_list_two_sweeps :
  let w := snd (recorded_loop ramp ramp ramp "flip_mirror_calib.csv"
                  (Sequence [1; 2]) 2 (1 # 4) bench0) in
  files w "flip_mirror_calib.csv" =
    Some {| columns := header;
            rows := [[1; 0; 0; 0]; [2; 1; 1; 1]; [1; 2; 2; 2]; [2; 3; 3; 3]] |}.
Proof. reflexivity. Qed.

Lemma measure_loop_sequence_example :
  exists w',
    recorded_loop ramp ramp ramp "flip_mirror_calib.csv" (Sequence [1; 2]) 2
      (1 # 4) bench0 = (Ok tt, w') /\
    files w' "flip_mirror_calib.csv" =
      Some {| columns := header;
              rows := [[1; 0; 0; 0]; [2; 1; 1; 1]; [1; 2; 2; 2]; [2; 3; 3; 3]] |}.
Proof.
  destruct (measure_loop_sequence ramp ramp ramp "flip_mirror_calib.csv"
              [1; 2] 2 (delay := 1 # 4) bench0) as (w' & Hrun & Hfile & _).
  - unfold Qle. cbn. lia.
  - exists w'. split; [exact Hrun | exact Hfile].
Defined.

(** ** Concrete runs for the further facts *)



Lemma measure_loop_console_and_files_witness :
  exists w',
    recorded_loop ramp ramp ramp "flip_mirror_calib.csv" (Sequence [1; 2]) 2
      (1 # 4) bench0 = (Ok tt, w') /\
    stdout w' =
      ["Setting voltage to 1.000 V"; "Setting voltage to 2.000 V";
       "Setting voltage to 1.000 V"; "Setting voltage to 2.000 V";
       "Saved 4 measurements to flip_mirror_calib.csv"] /\
    (forall p, p <> "flip_mirror_calib.csv" -> files w' p = files bench0 p).
Proof.
  apply (@measure_loop_console_and_files ramp ramp ramp "flip_mirror_calib.csv"
           [1; 2] 2%Z (1 # 4) bench0).
  unfold Qle. cbn. lia.
Defined.

Lemma measure_loop_negative_delay_witness :
  exists w',
    recorded_loop ramp ramp ramp "flip_mirror_calib.csv" (Sequence [1; 2]) 1
      (- (1 # 4)) bench0 =
      (Raise (Exc ValueError "sleep length must be non-negative"), w') /\
    events (rig w') = [SetVoltage 1; Flip "up"] /\
    flip_reads (rig w') = 0%nat /\
    target_reads (rig w') = 0%nat /\
    files w' = files bench0.
Proof.
  apply (@measure_loop_negative_delay ramp ramp ramp "flip_mirror_calib.csv"
           1 [2] 1%Z (- (1 # 4)) bench0).
  - reflexivity.
  - lia.
Defined.

Lemma measure_loop_test_sequence_witness :
  exists w',
    recorded_loop_test ramp ramp "flip_mirror_calib.csv" (Sequence [1; 2]) 2
      (1 # 4) bench0 = (Ok tt, w') /\
    files w' "flip_mirror_calib.csv" =
      Some {| columns := header_test;
              rows := [[1; 0; 0]; [2; 1; 1]; [1; 2; 2]; [2; 3; 3]] |} /\
    List.length [[1; 0; 0]; [2; 1; 1]; [1; 2; 2]; [2; 3; 3]] = 4%nat /\
    events (rig w') =
      [Flip "up"; SetVoltage 1; ReadFlip 0; SetVoltage 2; ReadFlip 1;
       SetVoltage 1; ReadFlip 2; SetVoltage 2; ReadFlip 3] /\
    target_reads (rig w') = 0%nat.
Proof.
  apply (@measure_loop_test_sequence ramp ramp "flip_mirror_calib.csv"
           [1; 2] 2%Z (1 # 4) bench0).
  unfold Qle. cbn. lia.
Defined.


End Calib.

(* ================================================================== *)
(** * The STIRAP pulse-shape generator *)
(* ================================================================== *)

Module Wave.

Local Open Scope string_scope.
Local Open Scope Q_scope.

(** ** The file system and the console *)

Record World := {
  files : string -> option string;
  (** can a file be created or opened at this path? *)
  writable : string -> bool;
  stdout : list string
}.

Local Abbreviation M := (Py.M World).

(** The line feed. *)
Definition newline : string := String (ascii_of_nat 10) EmptyString.

Definition print (line : string) : M unit :=
  fun w =>
    (Ok tt,
     {| files := files w; writable := writable w;
        stdout := stdout w ++ [line] |}).

Definition put_file (path data : string) (w : World) : World :=
  {| files := fun p => if String.eqb p path then Some data else files w p;
     writable := writable w; stdout := stdout w |}.

Definition no_such_file (path : string) : exc :=
  Exc OSError ("[Errno 2] No such file or directory: '" ++ path ++ "'").

(** ** Text files opened for update *)

Record handle := { h_data : string; h_pos : nat }.

(** [f.seek(0, 2)] *)
Definition seek_end (f : handle) : handle :=
  {| h_data := h_data f; h_pos := String.length (h_data f) |}.

(** [f.tell()] *)
Definition tell (f : handle) : Z := Z.of_nat (h_pos f).

(** [f.seek(offset, 0)] *)
Definition seek_set (offset : Z) (f : handle) : result handle :=
  if (offset <? 0)%Z
  then Raise (Exc ValueError ("negative seek position " ++ str_int offset))
  else Ok {| h_data := h_data f; h_pos := Z.to_nat offset |}.

(** [f.read(n)] *)
Definition read (n : nat) (f : handle) : string * handle :=
  let got := substring (h_pos f) n (h_data f) in
  (got, {| h_data := h_data f; h_pos := h_pos f + String.length got |}).

(** [f.truncate()] *)
Definition truncate (f : handle) : handle :=
  {| h_data := substring 0 (h_pos f) (h_data f); h_pos := h_pos f |}.

(** [with open(path, 'r+') as f: body], for a body that leaves through its
    end or through an exception; the file keeps what the body made of it. *)
Definition update_file (path : string) (body : handle -> result handle) : M unit :=
  fun w =>
    match files w path with
    | Some data =>
        if writable w path
        then
          match body {| h_data := data; h_pos := 0 |} with
          | Ok f => (Ok tt, put_file path (h_data f) w)
          | Raise e => (Raise e, w)
          end
        else (Raise (no_such_file path), w)
    | None => (Raise (no_such_file path), w)
    end.

(** [with open(path, 'a') as f: f.write(text)] *)
Definition append_file (path text : string) : M unit :=
  fun w =>
    if writable w path
    then
      let data := match files w path with
                  | Some data => data
                  | None => EmptyString
                  end in
      (Ok tt, put_file path (data ++ text) w)
    else (Raise (no_such_file path), w).

(** [np.savetxt(path, arr, delimiter=',', newline=',', fmt='%.10f')] for a
    one-dimensional array: every value, each followed by the "newline". *)
Fixpoint savetxt_text (arr : list Q) : string :=
  match arr with
  | [] => EmptyString
  | v :: rest => format_f 10 v ++ "," ++ savetxt_text rest
  end.

Definition savetxt (path : string) (arr : list Q) : M unit :=
  fun w =>
    if writable w path
    then (Ok tt, put_file path (savetxt_text arr) w)
    else (Raise (no_such_file path), w).

(** ** [export_to_csv] *)

(** The loop that fills [rescaled_arr]. *)
Definition rescale (array : list Q) : list Q :=
  map (fun el => if Qltb (Qabs el) (1 # 1000000000) then 0 else el) array.

(** The body of the first [with] block. *)
Definition remove_trailing_comma (f : handle) : result handle :=
  let f := seek_end f in
  match seek_set (tell f - 1) f with
  | Raise e => Raise e
  | Ok f =>
      let (ch, f) := read 1 f in
      if String.eqb ch ","
      then
        match seek_set (tell f - 1) f with
        | Raise e => Raise e
        | Ok f => Ok (truncate f)
        end
      else Ok f
  end.

Definition export_to_csv (array : list Q) (filepath filename : string) : M unit :=
  let full_path := filepath ++ "/" ++ filename in
  try_except
    (let rescaled_arr := rescale array in
     savetxt full_path rescaled_arr ;;
     update_file full_path remove_trailing_comma ;;
     append_file full_path newline ;;
     print ("Data successfully exported to " ++ full_path))
    (fun _ => true)
    (fun e =>
       print ("Error exporting data to " ++ full_path ++ ": " ++ exc_msg e)).

(** ** The pulse envelopes *)

(** [int(x)] for a float: truncation towards zero. *)
Definition trunc (q : Q) : Z := Z.quot (Qnum q) (Zpos (Qden q)).

(** [np.linspace(start, stop, num)] *)
Definition linspace (start stop : Q) (num : Z) : result (list Q) :=
  if (num <? 0)%Z
  then Raise (Exc ValueError
                ("Number of samples, " ++ str_int num ++ ", must be non-negative."))
  else if (num =? 0)%Z then Ok []
  else if (num =? 1)%Z then Ok [start]
  else
    let step := (stop - start) / inject_Z (num - 1) in
    Ok (map (fun i => start + inject_Z (Z.of_nat i) * step)
          (seq 0 (Z.to_nat num - 1))
        ++ [stop])%list.

(** [np.max(np.abs(arr))] *)
Definition max_abs (arr : list Q) : result Q :=
  match arr with
  | [] =>
      Raise (Exc ValueError
               "zero-size array to reduction operation maximum which has no identity")
  | v :: rest => Ok (fold_left (fun m x => Qmax m (Qabs x)) rest (Qabs v))
  end.

Section Envelopes.

(** numpy's elementary functions on float64 and its constant [pi]. *)
Variables np_exp np_cos np_sin : Q -> Q.
Variable np_pi : Q.

Definition stokes2 (t T : Q) : Q :=
  let a := 10 in
  let n := 4%Z in
  let c := T / 3 in
  np_exp (- ((t - T / 2) / c) ^ (2 * n))
  * np_cos (np_pi / 2 * (1 / (1 + np_exp ((- a * (t - T / 2)) / T)))).

Definition pump2 (t T : Q) : Q :=
  let a := 10 in
  let n := 4%Z in
  let c := T / 3 in
  np_exp (- ((t - T / 2) / c) ^ (2 * n))
  * np_sin (np_pi / 2 * (1 / (1 + np_exp ((- a * (t - T / 2)) / T)))).

(** ** [generate_rabi] *)

(** The divisor of the normalisation: the peak, or 1 for a flat zero. *)
Definition norm_divisor (peak : Q) : Q :=
  if negb (Qeq_bool peak 0) then peak else 1.

Definition generate_rabi (T : Q) (shape : string) (sample_rate : Q)
    (output_dir : string) : M string :=
  let N := trunc (T * sample_rate) in
  t <- lift (linspace 0 T N) ;;
  envelopes <-
    (if String.eqb shape "standard"
     then ret (map (fun ti => stokes2 ti T) t, map (fun ti => pump2 ti T) t)
     else raise (Exc ValueError
                   ("Unsupported shape for STIRAP pulses: " ++ shape))) ;;
  let Omega_S := fst envelopes in
  let Omega_P := snd envelopes in
  peakP <- lift (max_abs Omega_P) ;;
  let maxP := norm_divisor peakP in
  peakS <- lift (max_abs Omega_S) ;;
  let maxS := norm_divisor peakS in
  let Omega_P_norm := map (fun v => v / maxP) Omega_P in
  let Omega_S_norm := map (fun v => v / maxS) Omega_S in
  let filename_prefix := shape ++ "_" ++ format_f 0 (T * 1000) ++ "ns" in
  export_to_csv Omega_P_norm output_dir (filename_prefix ++ "_pump.csv") ;;
  export_to_csv Omega_S_norm output_dir (filename_prefix ++ "_stokes.csv") ;;
  ret filename_prefix.

(** ** [main] *)

Definition PULSE_LENGTHS : list Q := [1; 2].
Definition OUTPUT_DIR : string :=
  "C:\Users\LabUser\Documents\cold-control\waveforms\pulse_shaping_exp\stirap".
Definition SAMPLE_RATE : Q := 1000.
Definition PULSE_SHAPE : string := "standard".

Fixpoint generate_all (lengths : list Q) (generated : list string)
    : M (list string) :=
  match lengths with
  | [] => ret generated
  | T :: rest =>
      fname <- generate_rabi T PULSE_SHAPE SAMPLE_RATE OUTPUT_DIR ;;
      generate_all rest (generated ++ [fname])%list
  end.

Definition main : M unit :=
  generated <- generate_all PULSE_LENGTHS [] ;;
  print ("Done. Generated files:" ++ newline ++ join newline generated).

(** ** Facts about strings and files *)

Lemma append_assoc (a b c : string) : (a ++ b) ++ c = a ++ (b ++ c).
Proof. induction a as [| ch a IH]; cbn; [reflexivity | now rewrite IH]. Qed.

Lemma length_append_comma (s : string) :
  String.length (s ++ ",") = S (String.length s).
Proof. induction s as [| ch s IH]; cbn; [reflexivity | now rewrite IH]. Qed.

Lemma substring_last_comma (s : string) :
  substring (String.length s) 1 (s ++ ",") = ",".
Proof. induction s as [| ch s IH]; cbn; [reflexivity | exact IH]. Qed.

Lemma substring_before_comma (s : string) :
  substring 0 (String.length s) (s ++ ",") = s.
Proof. induction s as [| ch s IH]; cbn; [reflexivity | now rewrite IH]. Qed.

(** What [np.savetxt] wrote is the comma-separated line plus one comma. *)
Lemma savetxt_text_join (arr : list Q) :
  arr <> [] ->
  savetxt_text arr = join "," (map (format_f 10) arr) ++ ",".
Proof.
  induction arr as [| v rest IH]; [congruence | intros _].
  destruct rest as [| v' rest'].
  - cbn [savetxt_text map join]. reflexivity.
  - cbn [savetxt_text] in *. cbn [map join].
    rewrite IH by discriminate. cbn [map].
    now rewrite !append_assoc.
Qed.

(** On a text that ends in a comma the first [with] block removes just
    that comma. *)
Lemma remove_trailing_comma_spec (s : string) :
  remove_trailing_comma {| h_data := s ++ ","; h_pos := 0 |}
  = Ok {| h_data := s; h_pos := String.length s |}.
Proof.
  unfold remove_trailing_comma, seek_end, tell, seek_set, read, truncate.
  cbn [h_data h_pos].
  rewrite length_append_comma.
  replace (Z.of_nat (S (String.length s)) - 1)%Z
    with (Z.of_nat (String.length s)) by lia.
  destruct (Z.of_nat (String.length s) <? 0)%Z eqn:Hneg;
    [apply Z.ltb_lt in Hneg; lia |].
  cbn [h_data h_pos]. rewrite Nat2Z.id, substring_last_comma.
  cbn [String.eqb Ascii.eqb Bool.eqb String.length h_pos h_data].
  replace (Z.of_nat (String.length s + 1) - 1)%Z
    with (Z.of_nat (String.length s)) by lia.
  rewrite Hneg. cbn [h_data h_pos].
  now rewrite Nat2Z.id, substring_before_comma.
Qed.

(** On an empty file the block fails at its second [seek]. *)
Lemma remove_trailing_comma_empty :
  remove_trailing_comma {| h_data := EmptyString; h_pos := 0 |}
  = Raise (Exc ValueError "negative seek position -1").
Proof. reflexivity. Qed.

(** X22: the format of the exported file.  For a non-empty array and a path
    that can be written, [export_to_csv] leaves a file with one line: the
    values in order, each with ten decimals, separated by commas, no comma
    at the end, then a line feed.  Values of absolute value below 1e-9 are
    written as 0, the others as they are. *)
Lemma export_to_csv_format (array : list Q) (filepath filename : string)
    (w : World) :
  array <> [] ->
  writable w (filepath ++ "/" ++ filename) = true ->
  exists w',
    export_to_csv array filepath filename w = (Ok tt, w') /\
    files w' (filepath ++ "/" ++ filename) =
      Some (join ","
              (map (format_f 10)
                 (map (fun el =>
                         if Qltb (Qabs el) (1 # 1000000000) then 0 else el)
                    array))
            ++ newline) /\
    stdout w' =
      (stdout w ++
       [("Data successfully exported to " ++ filepath ++ "/" ++ filename)%string])%list.
Proof.
  intros Hne Hw.
  assert (Hres : rescale array <> []).
  { unfold rescale. destruct array; [congruence | discriminate]. }
  unfold export_to_csv, try_except, bind, savetxt, update_file, append_file,
    print.
  rewrite Hw. cbn [files put_file writable]. rewrite String.eqb_refl, Hw.
  rewrite (savetxt_text_join Hres), remove_trailing_comma_spec.
  cbn [files put_file writable h_data]. rewrite Hw, String.eqb_refl.
  eexists. split; [reflexivity |].
  cbn [files put_file stdout]. rewrite String.eqb_refl.
  split; reflexivity.
Qed.

(** The file of one export does not disturb the files next to it. *)
Lemma export_to_csv_other_file (array : list Q) (filepath filename other : string)
    (w : World) :
  other <> filepath ++ "/" ++ filename ->
  files (snd (export_to_csv array filepath filename w)) other = files w other.
Proof.
  intro Hother. apply String.eqb_neq in Hother.
  unfold export_to_csv, try_except, bind, savetxt, update_file, append_file,
    print.
  destruct (writable w _) eqn:Hw; [| reflexivity].
  cbn [files put_file writable]. rewrite String.eqb_refl, Hw.
  destruct (remove_trailing_comma _) as [f | e];
    cbn [files put_file writable snd]; rewrite ?Hw;
    cbn [files put_file writable snd]; rewrite ?Hother; reflexivity.
Qed.

(** ** Facts about the normalisation *)





Lemma max_abs_nonempty (arr : list Q) :
  arr <> [] -> exists m, max_abs arr = Ok m.
Proof. destruct arr; [congruence | intros _; cbn; eauto]. Qed.





(** ** Facts about [generate_rabi] *)

(** [export_to_csv] swallows every exception. *)
Lemma export_to_csv_returns (array : list Q) (filepath filename : string)
    (w : World) :
  fst (export_to_csv array filepath filename w) = Ok tt.
Proof.
  unfold export_to_csv, try_except, bind, savetxt, update_file, append_file,
    print.
  destruct (writable w _) eqn:Hw; [| reflexivity].
  cbn [files put_file writable]. rewrite String.eqb_refl, Hw.
  destruct (remove_trailing_comma _) as [f | e]; [| reflexivity].
  cbn [files put_file writable]. rewrite Hw. reflexivity.
Qed.

Lemma linspace_nonempty (start stop : Q) (num : Z) :
  (1 <= num)%Z -> exists t, linspace start stop num = Ok t /\ t <> [].
Proof.
  intro Hnum. unfold linspace.
  destruct (num <? 0)%Z eqn:Hneg; [apply Z.ltb_lt in Hneg; lia |].
  destruct (num =? 0)%Z eqn:Hzero; [apply Z.eqb_eq in Hzero; lia |].
  destruct (num =? 1)%Z.
  - eexists. split; [reflexivity | discriminate].
  - eexists. split; [reflexivity |].
    intro H. apply app_eq_nil in H. destruct H as [_ H]. discriminate.
Qed.


(** C9: every shape other than ["standard"] is refused with [ValueError],
    and the world is left as it was: nothing is written or printed. *)
Theorem generate_rabi_rejects_shape (T sample_rate : Q) (shape output_dir : string)
    (w : World) :
  shape <> "standard" ->
  exists msg,
    generate_rabi T shape sample_rate output_dir w
    = (Raise (Exc ValueError msg), w).
Proof.
  intro Hshape. apply String.eqb_neq in Hshape.
  unfold generate_rabi, bind at 1 2, lift.
  unfold linspace.
  destruct (trunc (T * sample_rate) <? 0)%Z; [eexists; reflexivity |].
  destruct (trunc (T * sample_rate) =? 0)%Z;
    [| destruct (trunc (T * sample_rate) =? 1)%Z];
    rewrite Hshape; unfold raise; eexists; reflexivity.
Qed.

(** With a supported shape and a time axis the last message is never the
    one of an unsupported shape: the check is on the shape alone. *)
Lemma generate_rabi_standard_returns (T sample_rate : Q) (output_dir : string)
    (w : World) :
  (1 <= trunc (T * sample_rate))%Z ->
  fst (generate_rabi T "standard" sample_rate output_dir w)
  = Ok ("standard_" ++ format_f 0 (T * 1000) ++ "ns").
Proof.
  intro HN.
  destruct (linspace_nonempty 0 T HN) as (t & Hlin & Ht).
  assert (HP : map (fun ti => pump2 ti T) t <> [])
    by (destruct t; [congruence | discriminate]).
  assert (HS : map (fun ti => stokes2 ti T) t <> [])
    by (destruct t; [congruence | discriminate]).
  destruct (max_abs_nonempty HP) as [peakP HpeakP].
  destruct (max_abs_nonempty HS) as [peakS HpeakS].
  unfold generate_rabi, bind at 1 2 3 4, lift, ret at 1.
  rewrite Hlin. cbn [String.eqb Ascii.eqb Bool.eqb fst snd].
  rewrite HpeakP, HpeakS.
  rewrite (bind_returns _ _ _ (export_to_csv_returns _ _ _ _)).
  rewrite (bind_returns _ _ _ (export_to_csv_returns _ _ _ _)).
  reflexivity.
Qed.


(** ** More about [export_to_csv] *)


Lemma export_to_csv_writable (array : list Q) (filepath filename : string)
    (w : World) :
  writable (snd (export_to_csv array filepath filename w)) = writable w.
Proof.
  unfold export_to_csv, try_except, bind, savetxt, update_file, append_file,
    print.
  destruct (writable w _) eqn:Hw; [| reflexivity].
  cbn [files put_file writable]. rewrite String.eqb_refl, Hw.
  destruct (remove_trailing_comma _) as [f | e]; [| reflexivity].
  cbn [files put_file writable]. rewrite Hw. reflexivity.
Qed.

(** One line is printed by every export. *)
Lemma export_to_csv_one_line (array : list Q) (filepath filename : string)
    (w : World) :
  exists line,
    stdout (snd (export_to_csv array filepath filename w))
    = (stdout w ++ [line])%list /\
    (line = "Data successfully exported to " ++ filepath ++ "/" ++ filename \/
     exists msg,
       line = "Error exporting data to " ++ (filepath ++ "/" ++ filename)
                ++ ": " ++ msg).
Proof.
  unfold export_to_csv, try_except, bind, savetxt, update_file, append_file,
    print.
  destruct (writable w _) eqn:Hw;
    [| eexists; split; [reflexivity | right; eexists; reflexivity]].
  cbn [files put_file writable]. rewrite String.eqb_refl, Hw.
  destruct (remove_trailing_comma _) as [f | e];
    [| eexists; split; [reflexivity | right; eexists; reflexivity]].
  cbn [files put_file writable]. rewrite Hw.
  eexists; split; [reflexivity | left; reflexivity].
Qed.

(** X23: [export_to_csv] never raises and always says how it went: it
    prints exactly one line, the success message or an error message that
    names the path, and it can change no file but the one at
    [filepath/filename]. *)
Theorem export_to_csv_always_reports (array : list Q)
    (filepath filename : string) (w : World) :
  let full := filepath ++ "/" ++ filename in
  let w' := snd (export_to_csv array filepath filename w) in
  fst (export_to_csv array filepath filename w) = Ok tt /\
  (exists line,
      stdout w' = (stdout w ++ [line])%list /\
      (line = "Data successfully exported to " ++ full \/
       exists msg, line = "Error exporting data to " ++ full ++ ": " ++ msg)) /\
  (forall other, other <> full -> files w' other = files w other).
Proof.
  cbn zeta. split; [apply export_to_csv_returns |].
  split; [apply export_to_csv_one_line |].
  intros other Hother. now apply export_to_csv_other_file.
Qed.


(** ** More about [generate_rabi] *)

Lemma linspace_length (start stop : Q) (num : Z) (t : list Q) :
  linspace start stop num = Ok t -> List.length t = Z.to_nat num.
Proof.
  unfold linspace.
  destruct (num <? 0)%Z eqn:Hneg; [discriminate |].
  apply Z.ltb_ge in Hneg.
  destruct (num =? 0)%Z eqn:Hzero.
  { apply Z.eqb_eq in Hzero. intro H. injection H as <-. now subst num. }
  destruct (num =? 1)%Z eqn:Hone.
  { apply Z.eqb_eq in Hone. intro H. injection H as <-. now subst num. }
  apply Z.eqb_neq in Hzero. apply Z.eqb_neq in Hone.
  intro H. injection H as <-.
  rewrite length_app, length_map, length_seq. cbn [List.length]. lia.
Qed.



(** What a run with the standard shape and at least one sample does. *)
Lemma generate_rabi_run (T sample_rate : Q) (output_dir : string) (w : World) :
  (1 <= trunc (T * sample_rate))%Z ->
  exists Omega_P_norm Omega_S_norm,
    List.length Omega_P_norm = Z.to_nat (trunc (T * sample_rate)) /\
    List.length Omega_S_norm = Z.to_nat (trunc (T * sample_rate)) /\
    let prefix := "standard_" ++ format_f 0 (T * 1000) ++ "ns" in
    generate_rabi T "standard" sample_rate output_dir w =
      (Ok prefix,
       snd (export_to_csv Omega_S_norm output_dir (prefix ++ "_stokes.csv")
              (snd (export_to_csv Omega_P_norm output_dir
                      (prefix ++ "_pump.csv") w)))).
Proof.
  intro HN.
  destruct (linspace_nonempty 0 T HN) as (t & Hlin & Ht).
  pose proof (linspace_length _ _ _ Hlin) as Hlen.
  assert (HP : map (fun ti => pump2 ti T) t <> [])
    by (destruct t; [congruence | discriminate]).
  assert (HS : map (fun ti => stokes2 ti T) t <> [])
    by (destruct t; [congruence | discriminate]).
  destruct (max_abs_nonempty HP) as [peakP HpeakP].
  destruct (max_abs_nonempty HS) as [peakS HpeakS].
  exists (map (fun v => v / norm_divisor peakP) (map (fun ti => pump2 ti T) t)),
    (map (fun v => v / norm_divisor peakS) (map (fun ti => stokes2 ti T) t)).
  rewrite !length_map. split; [exact Hlen |]. split; [exact Hlen |].
  cbn zeta. unfold generate_rabi, bind at 1 2 3 4, lift, ret at 1.
  rewrite Hlin. cbn [String.eqb Ascii.eqb Bool.eqb fst snd].
  rewrite HpeakP, HpeakS.
  rewrite (bind_returns _ _ _ (export_to_csv_returns _ _ _ _)).
  rewrite (bind_returns _ _ _ (export_to_csv_returns _ _ _ _)).
  reflexivity.
Qed.



(** ** [main] *)

(** A run of [generate_rabi] that exports prints two lines. *)
Lemma generate_rabi_two_lines (T sample_rate : Q) (output_dir : string)
    (w : World) :
  (1 <= trunc (T * sample_rate))%Z ->
  exists l1 l2 w',
    generate_rabi T "standard" sample_rate output_dir w =
      (Ok ("standard_" ++ format_f 0 (T * 1000) ++ "ns"), w') /\
    stdout w' = (stdout w ++ [l1; l2])%list.
Proof.
  intro HN.
  destruct (generate_rabi_run T sample_rate output_dir w HN)
    as (P & S & _ & _ & Hrun).
  cbn zeta in Hrun.
  match type of Hrun with
  | context [export_to_csv S ?d ?f (snd (export_to_csv P ?d ?g w))] =>
      destruct (export_to_csv_one_line P d g w) as (l1 & H1 & _);
      destruct (export_to_csv_one_line S d f (snd (export_to_csv P d g w)))
        as (l2 & H2 & _)
  end.
  exists l1, l2. eexists. split; [exact Hrun |].
  rewrite H2, H1, <- app_assoc. reflexivity.
Qed.

Lemma generate_all_returns (lengths : list Q) :
  Forall (fun T => (1 <= trunc (T * SAMPLE_RATE))%Z) lengths ->
  forall (generated : list string) (w : World),
  exists lines w',
    generate_all lengths generated w =
      (Ok (generated
             ++ map (fun T =>
                       ("standard_" ++ format_f 0 (T * 1000) ++ "ns")%string)
                  lengths)%list, w') /\
    List.length lines = (2 * List.length lengths)%nat /\
    stdout w' = (stdout w ++ lines)%list.
Proof.
  induction 1 as [| T lengths HT _ IH]; intros generated w;
    cbn [generate_all map List.length].
  - exists [], w. unfold ret. rewrite !app_nil_r. auto.
  - destruct (generate_rabi_two_lines T SAMPLE_RATE OUTPUT_DIR w HT)
      as (l1 & l2 & w1 & Hrun & Hout).
    destruct (IH (generated
                    ++ [("standard_" ++ format_f 0 (T * 1000) ++ "ns")%string])%list
                w1)
      as (lines & w2 & Hrest & Hlen & Hout2).
    exists (l1 :: l2 :: lines), w2.
    unfold bind, PULSE_SHAPE. rewrite Hrun, Hrest.
    rewrite <- app_assoc. cbn [app List.length].
    split; [reflexivity |]. split; [lia |].
    rewrite Hout2, Hout, <- app_assoc. reflexivity.
Qed.

(** X27: [main] always comes to its end, whatever the disk is like: the
    two pulse lengths give 1000 and 2000 samples, every export prints its
    one line (success or error), and the last line printed lists the two
    prefixes [standard_1000ns] and [standard_2000ns]. *)
Theorem main_always_done (w : World) :
  fst (main w) = Ok tt /\
  exists l1 l2 l3 l4,
    stdout (snd (main w)) =
      (stdout w
         ++ [l1; l2; l3; l4;
             ("Done. Generated files:" ++ newline ++ "standard_1000ns"
                ++ newline ++ "standard_2000ns")%string])%list.
Proof.
  assert (Hlengths :
            Forall (fun T => (1 <= trunc (T * SAMPLE_RATE))%Z) PULSE_LENGTHS).
  { repeat constructor; vm_compute; discriminate. }
  destruct (generate_all_returns Hlengths [] w)
    as (lines & w' & Hrun & Hlen & Hout).
  unfold main, bind, print. rewrite Hrun. cbn [fst snd stdout].
  split; [reflexivity |].
  destruct lines as [| l1 [| l2 [| l3 [| l4 [| l5 lines]]]]];
    try discriminate Hlen.
  exists l1, l2, l3, l4. rewrite Hout, <- app_assoc. reflexivity.
Qed.
End Envelopes.

(** ** A concrete run *)

(** A disk on which every path can be written and nothing exists yet. *)
Definition disk0 : World :=
  {| files := fun _ => None; writable := fun _ => true; stdout := [] |}.

(** Rational stand-ins for numpy's elementary functions: a product formula
    for the exponential, Taylor polynomials for sine and cosine. *)
Definition exp64 (x : Q) : Q := (1 + x / 64) ^ 64.
Definition sin7 (x : Q) : Q :=
  x - x ^ 3 / 6 + x ^ 5 / 120 - x ^ 7 / 5040.
Definition cos6 (x : Q) : Q :=
  1 - x ^ 2 / 2 + x ^ 4 / 24 - x ^ 6 / 720.
Definition pi_approx : Q := 355 # 113.

Example export_to_csv_line :
  files (snd (export_to_csv [1; - (1 # 2); 1 # 10000000000; 1 # 3]
                "out" "pulse.csv" disk0)) "out/pulse.csv"
  = Some ("1.0000000000,-0.5000000000,0.0000000000,0.3333333333" ++ newline).
Proof. reflexivity. Qed.


Lemma export_to_csv_format_example :
  exists w',
    export_to_csv [1; - (1 # 2); 1 # 10000000000] "out" "pulse.csv" disk0
    = (Ok tt, w') /\
    files w' "out/pulse.csv" =
      Some ("1.0000000000,-0.5000000000,0.0000000000" ++ newline) /\
    stdout w' = ["Data successfully exported to out/pulse.csv"].
Proof.
  apply (export_to_csv_format (array := [1; - (1 # 2); 1 # 10000000000])
           "out" "pulse.csv" disk0).
  - discriminate.
  - reflexivity.
Defined.


Lemma generate_rabi_rejects_shape_witness :
  exists msg,
    generate_rabi exp64 cos6 sin7 pi_approx 1 "gaussian" 1000 "out" disk0
    = (Raise (Exc ValueError msg), disk0).
Proof.
  apply (generate_rabi_rejects_shape exp64 cos6 sin7 pi_approx 1 1000
           (shape := "gaussian") "out" disk0).
  discriminate.
Defined.

Example generate_rabi_gaussian :
  generate_rabi exp64 cos6 sin7 pi_approx 1 "gaussian" 1000 "out" disk0
  = (Raise (Exc ValueError "Unsupported shape for STIRAP pulses: gaussian"),
     disk0).
Proof. reflexivity. Qed.





End Wave.
